(** * hyperd storage backends (daemon/storage.go)

    A shallow embedding of the storage-backend layer of the hyperd daemon:
    the [Storage] interface, the driver registry [StorageDrivers] with its
    selection function [StorageFactory], and the two backends
    [OverlayFsStorage] and [RawBlockStorage].

    The backends are thin: every effect goes through a helper of another
    package (the overlay mount helper, the raw-block image helper, the file
    copy routine, the kernel's umount, [os.MkdirAll]).  Those helpers are
    the fields of the class [Collaborators]; the backend code is written
    once, in a state monad over the host, for every implementation of them.
    A reference host ([RefHost]) instantiates the class so that every
    statement can be run on concrete inputs. *)

From Stdlib Require Import ZArith Ascii String.
From stdpp Require Import gmap strings list fin_maps.

Local Open Scope string_scope.
Local Open Scope Z_scope.

(** ** Go's [path/filepath] on a Unix host *)

Module filepath.

(** The elements of a path: the pieces between separators. *)
Fixpoint elements (path : string) : list string :=
  match path with
  | EmptyString => [EmptyString]
  | String c rest =>
      if Ascii.eqb c ("/" : Ascii.ascii) then EmptyString :: elements rest
      else match elements rest with
           | [] => [String c EmptyString]
           | e :: es => String c e :: es
           end
  end.

Definition rooted (path : string) : bool :=
  match path with
  | String c _ => Ascii.eqb c ("/" : Ascii.ascii)
  | EmptyString => false
  end.

(** One round of the loop of [Clean].  [out] holds the elements written so
    far, last one first.  An empty element and [.] are dropped; [..]
    removes the last element written when there is one to remove, is
    dropped at the root, and is kept in front of a relative path. *)
Definition clean_element (is_rooted : bool) (out : list string) (e : string)
  : list string :=
  if decide (e = "" ∨ e = ".") then out
  else if decide (e = "..") then
    match out with
    | last :: before =>
        if decide (last = "..") then e :: out else before
    | [] => if is_rooted then [] else [e]
    end
  else e :: out.

Fixpoint concat_with (sep : string) (l : list string) : string :=
  match l with
  | [] => ""
  | [e] => e
  | e :: es => e ++ sep ++ concat_with sep es
  end.

Definition Clean (path : string) : string :=
  let out := rev (fold_left (clean_element (rooted path)) (elements path) []) in
  if rooted path then "/" ++ concat_with "/" out
  else match out with
       | [] => "."
       | _ => concat_with "/" out
       end.

(** [Join] ignores leading empty elements, joins what is left with the
    separator and cleans the result; all elements empty gives [""]. *)
Fixpoint Join (elem : list string) : string :=
  match elem with
  | [] => ""
  | e :: es => if decide (e = "") then Join es
               else Clean (concat_with "/" elem)
  end.

(** A single path element that [Clean] keeps as it is: no separator in
    it, and not empty, [.] or [..]. *)
Definition is_name (e : string) : Prop :=
  elements e = [e] ∧ e ≠ "" ∧ e ≠ "." ∧ e ≠ "..".

(** An absolute directory path in clean form, other than the root. *)
Definition is_clean_dir (dir : string) : Prop :=
  rooted dir = true ∧ Clean dir = dir ∧ dir ≠ "/".

End filepath.

Arguments filepath.Join : simpl never.
Arguments filepath.Clean : simpl never.

(** ** Errors and the data handed across the interface *)

(** Go's [error] values as this layer meets them: a formatted message
    ([fmt.Errorf]), a kernel error number ([syscall.Errno]) and a path error
    wrapping another error ([*os.PathError]).  A nil error is [None] of
    [option error]. *)
Inductive error : Type :=
| fmt_Errorf (msg : string)
| syscall_Errno (n : Z)
| os_PathError (op path : string) (err : error).

Definition EBUSY : error := syscall_Errno 16.
Definition EINVAL : error := syscall_Errno 22.
Definition ENOENT : error := syscall_Errno 2.
Definition EACCES : error := syscall_Errno 13.
Definition ENOTDIR : error := syscall_Errno 20.

Module runv.
(** The descriptor handed to the guest attachment layer. *)
Record VolumeDescription : Type := {
  Name : string;
  Source : string;
  Fstype : string;
  Format : string;
  ReadOnly : bool
}.
End runv.

Module apitypes.
(** The caller's volume request; [CreateVolume] fills in where it lives. *)
Record UserVolume : Type := {
  Name : string;
  Source : string;
  Format : string;
  Fstype : string
}.
End apitypes.

Module dockertypes.
(** Host storage information; only the driver name is read here. *)
Record Info : Type := { Driver : string }.
End dockertypes.

(** The bytes an [io.Reader] still has to deliver. *)
Definition io_Reader : Type := string.

(** ** Effects: a state monad over the host *)

Definition M (Host A : Type) : Type := Host → A * Host.

#[export] Instance M_ret {Host} : MRet (M Host) := λ A (a : A) h, (a, h).
#[export] Instance M_bind {Host} : MBind (M Host) :=
  λ A B (f : A → M Host B) (m : M Host A) h, let '(a, h1) := m h in f a h1.

(** Go's [defer]: the body's result is the function's result; the deferred
    call runs after the body, on the state the body left, and what it
    returns is dropped. *)
Definition defer {Host A B} (deferred : M Host B) (body : M Host A) : M Host A :=
  λ h, let '(r, h1) := body h in
       let '(_, h2) := deferred h1 in
       (r, h2).

(** The helpers of other packages that the backends call, and the two
    constants they read.  Each helper is an action on the host; a helper
    that returns [(value, error)] in Go returns the pair here. *)
Class Collaborators (Host : Type) : Type := {
  utils_HYPER_ROOT : string;
  storage_DEFAULT_DM_VOL_SIZE : Z;
  errno_text : Z → string;
  glog_Error : string → M Host unit;
  overlay_MountContainerToSharedDir
    (containerId rootDir sharedDir mountLabel : string) (readonly : bool)
    : M Host (string * option error);
  syscall_Unmount (target : string) (flags : Z) : M Host (option error);
  storage_FsInjectFile
    (src : io_Reader) (containerId target baseDir : string) (perm uid gid : Z)
    : M Host (option error);
  storage_CreateVFSVolume (podId shortName : string)
    : M Host (string * option error);
  rawblock_GetImage
    (graphDir mntDir id fstype mountLabel : string) (uid gid : Z)
    : M Host (option error);
  rawblock_PutImage (mntDir id : string) : M Host (option error);
  rawblock_CreateBlock (path fstype mountLabel : string) (size : Z)
    : M Host (option error);
  os_MkdirAll (path : string) (perm : Z) : M Host (option error)
}.

(** A file mode written in octal, as Go's [0700]. *)
Definition octal (digits : list Z) : Z := fold_left (λ acc d, 8 * acc + d) digits 0.

(** An unsigned 64-bit conversion, as in [uint64(x)]. *)
Definition uint64 (x : Z) : Z := x mod 2 ^ 64.

Section Daemon.

Context {Host : Type} {collab : Collaborators Host}.
Context {DaemonDB : Type}.

(** [err.Error()] *)
Fixpoint Error (e : error) : string :=
  match e with
  | fmt_Errorf msg => msg
  | syscall_Errno n => errno_text n
  | os_PathError op path err => op ++ " " ++ path ++ ": " ++ Error err
  end.

(** *** The interface *)

Class Storage_methods (T : Type) : Type := {
  Storage_Type : T → string;
  Storage_RootPath : T → string;
  Storage_Init : T → M Host (option error);
  Storage_CleanUp : T → M Host (option error);
  Storage_PrepareContainer (s : T) (mountId sharedDir : string) (readonly : bool)
    : M Host (option runv.VolumeDescription * option error);
  Storage_CleanupContainer (s : T) (id sharedDir : string) : M Host (option error);
  Storage_InjectFile (s : T) (src : io_Reader) (containerId target baseDir : string)
    (perm uid gid : Z) : M Host (option error);
  Storage_CreateVolume (s : T) (podId : string) (spec : apitypes.UserVolume)
    : M Host (option error * apitypes.UserVolume);
  Storage_RemoveVolume (s : T) (podId : string) (record : string)
    : M Host (option error)
}.

(** *** The overlay backend *)

Record OverlayFsStorage : Type := { overlay_rootPath : string }.

Definition OverlayFsStorage_Type (o : OverlayFsStorage) : string := "overlay".

Definition OverlayFsStorage_RootPath (o : OverlayFsStorage) : string :=
  overlay_rootPath o.

Definition OverlayFsStorage_Init (o : OverlayFsStorage) : M Host (option error) :=
  mret None.

Definition OverlayFsStorage_CleanUp (o : OverlayFsStorage) : M Host (option error) :=
  mret None.

Definition OverlayFsStorage_PrepareContainer (o : OverlayFsStorage)
    (mountId sharedDir : string) (readonly : bool)
  : M Host (option runv.VolumeDescription * option error) :=
  '(_, err) ← overlay_MountContainerToSharedDir
                mountId (OverlayFsStorage_RootPath o) sharedDir "" readonly;
  match err with
  | Some e =>
      glog_Error ("got error when mount container to share dir " ++ Error e);;
      mret (None, Some e)
  | None =>
      let containerPath := "/" ++ mountId in
      let vol := {| runv.Name := containerPath;
                    runv.Source := containerPath;
                    runv.Fstype := "dir";
                    runv.Format := "vfs";
                    runv.ReadOnly := readonly |} in
      mret (Some vol, None)
  end.

Definition OverlayFsStorage_CleanupContainer (o : OverlayFsStorage)
    (id sharedDir : string) : M Host (option error) :=
  syscall_Unmount (filepath.Join [sharedDir; id; "rootfs"]) 0.

Definition OverlayFsStorage_InjectFile (o : OverlayFsStorage) (src : io_Reader)
    (mountId target baseDir : string) (perm uid gid : Z) : M Host (option error) :=
  '(_, err) ← overlay_MountContainerToSharedDir
                mountId (OverlayFsStorage_RootPath o) baseDir "" false;
  match err with
  | Some e =>
      glog_Error ("got error when mount container to share dir " ++ Error e);;
      mret (Some e)
  | None =>
      defer (syscall_Unmount (filepath.Join [baseDir; mountId; "rootfs"]) 0)
            (storage_FsInjectFile src mountId target baseDir perm uid gid)
  end.

Definition OverlayFsStorage_CreateVolume (o : OverlayFsStorage) (podId : string)
    (spec : apitypes.UserVolume) : M Host (option error * apitypes.UserVolume) :=
  '(volName, err) ← storage_CreateVFSVolume podId (apitypes.Name spec);
  match err with
  | Some e => mret (Some e, spec)
  | None =>
      mret (None, {| apitypes.Name := apitypes.Name spec;
                     apitypes.Source := volName;
                     apitypes.Format := "vfs";
                     apitypes.Fstype := "dir" |})
  end.

Definition OverlayFsStorage_RemoveVolume (o : OverlayFsStorage) (podId : string)
    (record : string) : M Host (option error) :=
  mret None.

(** *** The raw-block backend *)

Record RawBlockStorage : Type := { rawblock_rootPath : string }.

Definition RawBlockStorage_Type (s : RawBlockStorage) : string := "rawblock".

Definition RawBlockStorage_RootPath (s : RawBlockStorage) : string :=
  rawblock_rootPath s.

Definition RawBlockStorage_Init (s : RawBlockStorage) : M Host (option error) :=
  err ← os_MkdirAll (filepath.Join [RawBlockStorage_RootPath s; "volumes"])
           (octal [0; 7; 0; 0]);
  match err with
  | Some e => mret (Some e)
  | None => mret None
  end.

Definition RawBlockStorage_CleanUp (s : RawBlockStorage) : M Host (option error) :=
  mret None.

Definition RawBlockStorage_PrepareContainer (s : RawBlockStorage)
    (containerId sharedDir : string) (readonly : bool)
  : M Host (option runv.VolumeDescription * option error) :=
  let devFullName := filepath.Join [RawBlockStorage_RootPath s; "blocks"; containerId] in
  let vol := {| runv.Name := devFullName;
                runv.Source := devFullName;
                runv.Fstype := "xfs";
                runv.Format := "raw";
                runv.ReadOnly := readonly |} in
  mret (Some vol, None).

Definition RawBlockStorage_CleanupContainer (s : RawBlockStorage)
    (id sharedDir : string) : M Host (option error) :=
  mret None.

Definition RawBlockStorage_InjectFile (s : RawBlockStorage) (src : io_Reader)
    (mountId target baseDir : string) (perm uid gid : Z) : M Host (option error) :=
  err ← rawblock_GetImage (filepath.Join [RawBlockStorage_RootPath s; "blocks"])
          baseDir mountId "xfs" "" uid gid;
  match err with
  | Some e => mret (Some e)
  | None =>
      defer (rawblock_PutImage baseDir mountId)
            (storage_FsInjectFile src mountId target baseDir perm uid gid)
  end.

Definition RawBlockStorage_CreateVolume (s : RawBlockStorage) (podId : string)
    (spec : apitypes.UserVolume) : M Host (option error * apitypes.UserVolume) :=
  let block := filepath.Join [RawBlockStorage_RootPath s; "volumes";
                              podId ++ "-" ++ apitypes.Name spec] in
  err ← rawblock_CreateBlock block "xfs" "" (uint64 storage_DEFAULT_DM_VOL_SIZE);
  match err with
  | Some e => mret (Some e, spec)
  | None =>
      mret (None, {| apitypes.Name := apitypes.Name spec;
                     apitypes.Source := block;
                     apitypes.Format := "raw";
                     apitypes.Fstype := "xfs" |})
  end.

Definition RawBlockStorage_RemoveVolume (s : RawBlockStorage) (podId : string)
    (record : string) : M Host (option error) :=
  mret None.

(** *** Both backends satisfy the interface *)

#[export] Instance OverlayFsStorage_methods : Storage_methods OverlayFsStorage := {
  Storage_Type := OverlayFsStorage_Type;
  Storage_RootPath := OverlayFsStorage_RootPath;
  Storage_Init := OverlayFsStorage_Init;
  Storage_CleanUp := OverlayFsStorage_CleanUp;
  Storage_PrepareContainer := OverlayFsStorage_PrepareContainer;
  Storage_CleanupContainer := OverlayFsStorage_CleanupContainer;
  Storage_InjectFile := OverlayFsStorage_InjectFile;
  Storage_CreateVolume := OverlayFsStorage_CreateVolume;
  Storage_RemoveVolume := OverlayFsStorage_RemoveVolume
}.

#[export] Instance RawBlockStorage_methods : Storage_methods RawBlockStorage := {
  Storage_Type := RawBlockStorage_Type;
  Storage_RootPath := RawBlockStorage_RootPath;
  Storage_Init := RawBlockStorage_Init;
  Storage_CleanUp := RawBlockStorage_CleanUp;
  Storage_PrepareContainer := RawBlockStorage_PrepareContainer;
  Storage_CleanupContainer := RawBlockStorage_CleanupContainer;
  Storage_InjectFile := RawBlockStorage_InjectFile;
  Storage_CreateVolume := RawBlockStorage_CreateVolume;
  Storage_RemoveVolume := RawBlockStorage_RemoveVolume
}.

(** A value of interface type [Storage]: one of the implementing structs,
    tagged with which one it is. *)
Inductive Storage : Type :=
| Storage_overlay (o : OverlayFsStorage)
| Storage_rawblock (s : RawBlockStorage).

Definition dispatch {R : Type}
    (f : ∀ T, Storage_methods T → T → R) (st : Storage) : R :=
  match st with
  | Storage_overlay o => f OverlayFsStorage _ o
  | Storage_rawblock s => f RawBlockStorage _ s
  end.

#[export] Instance Storage_interface : Storage_methods Storage := {
  Storage_Type := dispatch (λ T _, Storage_Type);
  Storage_RootPath := dispatch (λ T _, Storage_RootPath);
  Storage_Init := dispatch (λ T _, Storage_Init);
  Storage_CleanUp := dispatch (λ T _, Storage_CleanUp);
  Storage_PrepareContainer := dispatch (λ T _, Storage_PrepareContainer);
  Storage_CleanupContainer := dispatch (λ T _, Storage_CleanupContainer);
  Storage_InjectFile := dispatch (λ T _, Storage_InjectFile);
  Storage_CreateVolume := dispatch (λ T _, Storage_CreateVolume);
  Storage_RemoveVolume := dispatch (λ T _, Storage_RemoveVolume)
}.

(** *** The registry and the selection *)

Definition factory : Type :=
  dockertypes.Info → DaemonDB → option Storage * option error.

Definition OverlayFsFactory : factory :=
  λ _ _,
    let driver := {| overlay_rootPath := filepath.Join [utils_HYPER_ROOT; "overlay"] |} in
    (Some (Storage_overlay driver), None).

Definition RawBlockFactory : factory :=
  λ _ _,
    let driver := {| rawblock_rootPath := filepath.Join [utils_HYPER_ROOT; "rawblock"] |} in
    (Some (Storage_rawblock driver), None).

Definition StorageDrivers : gmap string factory :=
  <["overlay" := OverlayFsFactory]> (<["rawblock" := RawBlockFactory]> ∅).

Definition StorageFactory (sysinfo : dockertypes.Info) (db : DaemonDB)
  : option Storage * option error :=
  match StorageDrivers !! dockertypes.Driver sysinfo with
  | Some factory => factory sysinfo db
  | None =>
      (None,
       Some (fmt_Errorf ("hyperd can not support docker's backing storage: "
                         ++ dockertypes.Driver sysinfo)))
  end.

End Daemon.

(** ** What can be observed of a host *)

(** Mounts stack: mounting twice on one mount point takes two unmounts to
    clear it.  The observations count them. *)
Class HostView (Host : Type) : Type := {
  (** union mounts currently placed on a mount point *)
  mount_count : string → Host → nat;
  (** raw-block images currently attached under [(mntDir, id)] *)
  attach_count : string → string → Host → nat;
  (** the permission bits a directory was created with, [None] when there
      is no such directory *)
  dir_perm : string → Host → option Z
}.

(** ** A reference host *)

Fixpoint occurrences {A} `{EqDecision A} (x : A) (l : list A) : nat :=
  match l with
  | [] => 0%nat
  | y :: l' => ((if decide (x = y) then 1 else 0) + occurrences x l')%nat
  end.

Fixpoint remove_first {A} `{EqDecision A} (x : A) (l : list A) : list A :=
  match l with
  | [] => []
  | y :: l' => if decide (x = y) then l' else y :: remove_first x l'
  end.

(** The part of the environment that does not change while the daemon runs:
    where the daemon keeps its data, and what goes wrong on this machine. *)
Record Env : Type := {
  env_HYPER_ROOT : string;
  env_DEFAULT_DM_VOL_SIZE : Z;
  (** containers whose layer data is absent: their union mount fails *)
  missing_layers : gset string;
  (** mount points the kernel refuses to release *)
  busy : gset string;
  (** paths that cannot be created or written *)
  protected : gset string
}.

Record RefHost : Type := {
  mounts : list string;
  attached : list (string * string);
  dirs : gmap string Z;
  images : gmap string (string * Z);
  injected : list (string * io_Reader * Z * Z * Z);
  glog : list string
}.

Definition set_mounts (f : list string → list string) (h : RefHost) : RefHost :=
  {| mounts := f (mounts h); attached := attached h; dirs := dirs h;
     images := images h; injected := injected h; glog := glog h |}.

Definition set_attached (f : list (string * string) → list (string * string))
    (h : RefHost) : RefHost :=
  {| mounts := mounts h; attached := f (attached h); dirs := dirs h;
     images := images h; injected := injected h; glog := glog h |}.

Definition set_dirs (f : gmap string Z → gmap string Z) (h : RefHost) : RefHost :=
  {| mounts := mounts h; attached := attached h; dirs := f (dirs h);
     images := images h; injected := injected h; glog := glog h |}.

Definition set_images (f : gmap string (string * Z) → gmap string (string * Z))
    (h : RefHost) : RefHost :=
  {| mounts := mounts h; attached := attached h; dirs := dirs h;
     images := f (images h); injected := injected h; glog := glog h |}.

Definition set_injected
    (f : list (string * io_Reader * Z * Z * Z) → list (string * io_Reader * Z * Z * Z))
    (h : RefHost) : RefHost :=
  {| mounts := mounts h; attached := attached h; dirs := dirs h;
     images := images h; injected := f (injected h); glog := glog h |}.

Definition set_glog (f : list string → list string) (h : RefHost) : RefHost :=
  {| mounts := mounts h; attached := attached h; dirs := dirs h;
     images := images h; injected := injected h; glog := f (glog h) |}.

Module ref.

(** The kernel's text for the error numbers used below. *)
Definition errno_text (n : Z) : string :=
  if decide (n = 2) then "no such file or directory"
  else if decide (n = 13) then "permission denied"
  else if decide (n = 16) then "device or resource busy"
  else if decide (n = 20) then "not a directory"
  else if decide (n = 22) then "invalid argument"
  else "errno".

Definition glog_Error (msg : string) : M RefHost unit :=
  λ h, (tt, set_glog (λ l, (l ++ [msg])%list) h).

(** The directories above [path], outermost first. *)
Definition parents (path : string) : list string :=
  let es := filter (λ e, e ≠ "") (filepath.elements path) in
  (λ k, (if filepath.rooted path then "/" else "")
          ++ filepath.concat_with "/" (take k es))
    <$> seq 1 (length es - 1).

Definition mkdir_missing (perm : Z) (m : gmap string Z) (d : string) : gmap string Z :=
  match m !! d with
  | Some _ => m
  | None => <[d := perm]> m
  end.

(** Modelled from the spec: the union-mount helper
    [overlay.MountContainerToSharedDir], which is not in this file.  It
    places a union mount for [containerId] at a path derived from
    [(sharedDir, containerId)], the one [CleanupContainer] unmounts, making
    the mount point a directory if it is not one yet, and fails for
    environmental reasons without mounting anything. *)
Definition MountContainerToSharedDir (env : Env)
    (containerId rootDir sharedDir mountLabel : string) (readonly : bool)
  : M RefHost (string * option error) :=
  λ h,
    let mountPoint := filepath.Join [sharedDir; containerId; "rootfs"] in
    if decide (containerId ∈ missing_layers env) then
      (("", Some (fmt_Errorf ("error creating overlay mount to " ++ mountPoint))), h)
    else
      ((mountPoint, None),
       set_dirs (λ m, mkdir_missing (octal [0; 7; 5; 5]) m mountPoint)
         (set_mounts (cons mountPoint) h)).

(** The kernel's umount: releases the topmost mount on [target], unless the
    mount point is busy; a directory that is not a mount point is an
    invalid argument, and a path that does not exist is no such file. *)
Definition Unmount (env : Env) (target : string) (flags : Z)
  : M RefHost (option error) :=
  λ h,
    if decide (target ∈ mounts h) then
      if decide (target ∈ busy env) then (Some EBUSY, h)
      else (None, set_mounts (remove_first target) h)
    else
      match dirs h !! target with
      | Some _ => (Some EINVAL, h)
      | None => (Some ENOENT, h)
      end.

(** Modelled from the spec: the file-copy helper [storage.FsInjectFile],
    which is not in this file.  It writes [src] to [target] inside the
    already mounted tree of the container under [baseDir], with the given
    permission bits and ownership, and mounts or unmounts nothing. *)
Definition FsInjectFile (env : Env) (src : io_Reader)
    (containerId target baseDir : string) (perm uid gid : Z)
  : M RefHost (option error) :=
  λ h,
    let dest := filepath.Join [baseDir; containerId; "rootfs"; target] in
    if decide (dest ∈ protected env) then
      (Some (os_PathError "open" dest EACCES), h)
    else (None, set_injected (cons (dest, src, perm, uid, gid)) h).

(** Modelled from the spec: the directory-volume helper
    [storage.CreateVFSVolume], which is not in this file.  It allocates a
    host directory keyed by [(podId, shortName)] and returns its path. *)
Definition CreateVFSVolume (env : Env) (podId shortName : string)
  : M RefHost (string * option error) :=
  λ h,
    let dir := filepath.Join [env_HYPER_ROOT env; "vfs"; "volumes"; podId; shortName] in
    if decide (dir ∈ protected env) then
      (("", Some (os_PathError "mkdir" dir EACCES)), h)
    else ((dir, None), set_dirs (insert dir (octal [0; 7; 5; 5])) h).

(** Modelled from the spec: the block-image helper [rawblock.GetImage],
    which is not in this file.  It attaches the image of [id] found under
    [graphDir] at [mntDir], keyed by [(mntDir, id)]; it fails, attaching
    nothing, when there is no such image. *)
Definition GetImage (env : Env)
    (graphDir mntDir id fstype mountLabel : string) (uid gid : Z)
  : M RefHost (option error) :=
  λ h,
    let image := filepath.Join [graphDir; id] in
    match images h !! image with
    | None => (Some (os_PathError "stat" image ENOENT), h)
    | Some _ => (None, set_attached (cons (mntDir, id)) h)
    end.

(** Modelled from the spec: the block-image helper [rawblock.PutImage],
    which is not in this file.  It detaches what [GetImage] attached under
    [(mntDir, id)], unless its mount point is busy; with nothing attached
    there is nothing to do. *)
Definition PutImage (env : Env) (mntDir id : string) : M RefHost (option error) :=
  λ h,
    if decide ((mntDir, id) ∈ attached h) then
      if decide (filepath.Join [mntDir; id; "rootfs"] ∈ busy env) then (Some EBUSY, h)
      else (None, set_attached (remove_first (mntDir, id)) h)
    else (None, h).

(** Modelled from the spec: the block-image helper [rawblock.CreateBlock],
    which is not in this file.  It creates and formats a raw image of
    [size] bytes at [path]. *)
Definition CreateBlock (env : Env) (path fstype mountLabel : string) (size : Z)
  : M RefHost (option error) :=
  λ h,
    if decide (path ∈ protected env) then
      (Some (os_PathError "create" path EACCES), h)
    else (None, set_images (insert path (fstype, size)) h).

(** Making the directories [ds] one after the other, each with [perm]: one
    that is there already is passed over, and the first one that cannot be
    made, because a file has its name or its place is protected, ends the
    walk with the error, which names it. *)
Fixpoint mkdir_each (env : Env) (files : gmap string (string * Z)) (perm : Z)
    (ds : list string) (m : gmap string Z) : option error * gmap string Z :=
  match ds with
  | [] => (None, m)
  | d :: ds' =>
      match m !! d with
      | Some _ => mkdir_each env files perm ds' m
      | None =>
          if decide (is_Some (files !! d)) then
            (Some (os_PathError "mkdir" d ENOTDIR), m)
          else if decide (d ∈ protected env) then
            (Some (os_PathError "mkdir" d EACCES), m)
          else mkdir_each env files perm ds' (<[d := perm]> m)
      end
  end.

(** [os.MkdirAll]: nothing to do, and no error, when [path] is a directory
    already; otherwise its missing parents and then the directory are
    made with [perm] (the bits before the umask applies), outermost
    first, and the error is that of the first one that cannot be made. *)
Definition MkdirAll (env : Env) (path : string) (perm : Z)
  : M RefHost (option error) :=
  λ h,
    match dirs h !! path with
    | Some _ => (None, h)
    | None =>
        let '(err, m) :=
          mkdir_each env (images h) perm (parents path ++ [path])%list (dirs h) in
        (err, set_dirs (λ _, m) h)
    end.

End ref.

Definition RefCollaborators (env : Env) : Collaborators RefHost := {|
  utils_HYPER_ROOT := env_HYPER_ROOT env;
  storage_DEFAULT_DM_VOL_SIZE := env_DEFAULT_DM_VOL_SIZE env;
  errno_text := ref.errno_text;
  glog_Error := ref.glog_Error;
  overlay_MountContainerToSharedDir := ref.MountContainerToSharedDir env;
  syscall_Unmount := ref.Unmount env;
  storage_FsInjectFile := ref.FsInjectFile env;
  storage_CreateVFSVolume := ref.CreateVFSVolume env;
  rawblock_GetImage := ref.GetImage env;
  rawblock_PutImage := ref.PutImage env;
  rawblock_CreateBlock := ref.CreateBlock env;
  os_MkdirAll := ref.MkdirAll env
|}.

#[export] Instance RefHost_view : HostView RefHost := {|
  mount_count p h := occurrences p (mounts h);
  attach_count mntDir id h := occurrences (mntDir, id) (attached h);
  dir_perm p h := dirs h !! p
|}.

(** A machine on which nothing goes wrong, one whose mount points are busy,
    one with a container without layers and a protected data directory, and
    a host that has just booted. *)
Definition calm : Env := {|
  env_HYPER_ROOT := "/var/lib/hyper";
  env_DEFAULT_DM_VOL_SIZE := 2 * 1024 * 1024 * 1024;
  missing_layers := ∅; busy := ∅; protected := ∅
|}.

Definition stuck : Env := {|
  env_HYPER_ROOT := "/var/lib/hyper";
  env_DEFAULT_DM_VOL_SIZE := 2 * 1024 * 1024 * 1024;
  missing_layers := ∅;
  busy := {[ "/run/inject/c1/rootfs" ]};
  protected := ∅
|}.

Definition broken : Env := {|
  env_HYPER_ROOT := "/var/lib/hyper";
  env_DEFAULT_DM_VOL_SIZE := 2 * 1024 * 1024 * 1024;
  missing_layers := {[ "c1" ]};
  busy := ∅;
  protected := {[ "/var/lib/hyper/rawblock/volumes";
                  "/var/lib/hyper/rawblock/volumes/p1-data";
                  "/var/lib/hyper/vfs/volumes/p1/data";
                  "/run/inject/c2/rootfs/etc/hosts" ]}
|}.

(** A machine whose data root is the root directory itself. *)
Definition at_root : Env := {|
  env_HYPER_ROOT := "/";
  env_DEFAULT_DM_VOL_SIZE := 2 * 1024 * 1024 * 1024;
  missing_layers := ∅; busy := ∅; protected := ∅
|}.

Definition fresh : RefHost := {|
  mounts := []; attached := []; dirs := ∅; images := ∅; injected := []; glog := []
|}.

(** A host on which the image of container [c1] has been pulled. *)
Definition pulled : RefHost :=
  set_images (insert "/var/lib/hyper/rawblock/blocks/c1" ("xfs", 1024)) fresh.

(** The two backends as the factories build them on these machines, a
    volume request, and a file to inject. *)
Definition example_overlay : OverlayFsStorage :=
  {| overlay_rootPath := "/var/lib/hyper/overlay" |}.

Definition example_rawblock : RawBlockStorage :=
  {| rawblock_rootPath := "/var/lib/hyper/rawblock" |}.

Definition example_volume : apitypes.UserVolume :=
  {| apitypes.Name := "data"; apitypes.Source := "";
     apitypes.Format := ""; apitypes.Fstype := "" |}.

Definition example_file : io_Reader := "127.0.0.1 localhost".

(** A host on which an administrator has made the raw-block volumes
    directory by hand, with mode 0755. *)
Definition configured : RefHost :=
  set_dirs (insert "/var/lib/hyper/rawblock/volumes" (octal [0; 7; 5; 5])) fresh.

(** A host on which container [c1] has been prepared twice in
    [/run/share] and not yet cleaned up. *)
Definition prepared_twice : RefHost :=
  set_mounts (λ _, ["/run/share/c1/rootfs"; "/run/share/c1/rootfs"]) fresh.


(** * Properties *)

(** Unfolds the monad's operations and names the result of each helper
    call met on the way. *)
Ltac run_monad :=
  unfold mbind, M_bind, mret, M_ret, defer in *; simpl in *.

Ltac case_call :=
  match goal with
  | |- context [let '(_, _) := ?call in _] =>
      let E := fresh "Hcall" in destruct call as [? ?] eqn:E; simpl in *
  | H : context [let '(_, _) := ?call in _] |- _ =>
      let E := fresh "Hcall" in destruct call as [? ?] eqn:E; simpl in *
  end.

(** ** Paths *)

Example Join_plain :
  filepath.Join ["/var/lib/hyper/rawblock"; "blocks"; "c1"]
  = "/var/lib/hyper/rawblock/blocks/c1".
Proof. reflexivity. Qed.

Example Join_dotdot :
  filepath.Join ["/var/lib/hyper"; "blocks"; "../x/./y//"] = "/var/lib/hyper/x/y".
Proof. reflexivity. Qed.

Example Join_relative :
  filepath.Join [""; "a"; ""; "../../../b"] = "../../b".
Proof. reflexivity. Qed.

Example Join_empty : filepath.Join [""; ""] = "".
Proof. reflexivity. Qed.

Example Clean_root : filepath.Clean "/../a/.." = "/".
Proof. reflexivity. Qed.

Lemma string_app_assoc (a b c : string) : (a ++ b) ++ c = a ++ (b ++ c).
Proof.
  induction a as [| x a IH]; [reflexivity |].
  change (String x ((a ++ b) ++ c) = String x (a ++ (b ++ c))). by f_equal.
Qed.

Lemma elements_not_nil (path : string) : filepath.elements path ≠ [].
Proof.
  destruct path as [| c rest]; simpl; [discriminate |].
  destruct (Ascii.eqb c "/"); [discriminate |].
  destruct (filepath.elements rest); discriminate.
Qed.

(** Splitting distributes over a separator. *)
Lemma elements_app_separator (a b : string) :
  filepath.elements (a ++ "/" ++ b)
  = (filepath.elements a ++ filepath.elements b)%list.
Proof.
  induction a as [| c a IH]; simpl; [reflexivity |].
  rewrite IH. destruct (Ascii.eqb c "/"); [reflexivity |].
  pose proof (elements_not_nil a) as Hne.
  destruct (filepath.elements a) as [| e es]; [done | reflexivity].
Qed.

Lemma rooted_app (a b : string) :
  filepath.rooted a = true → filepath.rooted (a ++ b) = true.
Proof. destruct a; simpl; [discriminate | auto]. Qed.

Lemma clean_element_name (is_rooted : bool) (out : list string) (e : string) :
  filepath.is_name e → filepath.clean_element is_rooted out e = e :: out.
Proof.
  intros (_ & Hempty & Hdot & Hdotdot). unfold filepath.clean_element.
  rewrite decide_False by (intros [? | ?]; congruence).
  rewrite decide_False by assumption. reflexivity.
Qed.

Lemma concat_with_snoc (sep : string) (l : list string) (e : string) :
  l ≠ [] →
  filepath.concat_with sep (l ++ [e])%list = filepath.concat_with sep l ++ sep ++ e.
Proof.
  induction l as [| x l IH]; [done |]. intros _.
  destruct l as [| y l]; [reflexivity |].
  change (filepath.concat_with sep ((x :: y :: l) ++ [e])%list)
    with (x ++ sep ++ filepath.concat_with sep ((y :: l) ++ [e])%list).
  rewrite IH by discriminate.
  change (filepath.concat_with sep (x :: y :: l))
    with (x ++ sep ++ filepath.concat_with sep (y :: l)).
  by rewrite !string_app_assoc.
Qed.

(** Two names joined under a clean absolute directory: the result is the
    three pieces with separators between them, character for character. *)
Lemma Join_under_clean_dir (root d e : string) :
  filepath.is_clean_dir root → filepath.is_name d → filepath.is_name e →
  filepath.Join [root; d; e] = root ++ "/" ++ d ++ "/" ++ e.
Proof.
  intros (Hrooted & Hclean & Hnotroot) Hd He.
  unfold filepath.Join. rewrite decide_False by (intros ->; discriminate).
  change (filepath.concat_with "/" [root; d; e]) with (root ++ "/" ++ (d ++ "/" ++ e)).
  revert Hclean. unfold filepath.Clean.
  rewrite (rooted_app root _ Hrooted), Hrooted.
  rewrite !elements_app_separator, !fold_left_app.
  destruct Hd as [Hd1 Hd], He as [He1 He]. rewrite Hd1, He1. simpl fold_left.
  rewrite !clean_element_name by (split; assumption).
  set (out := fold_left (filepath.clean_element true) (filepath.elements root) []).
  intros Hclean. simpl rev.
  assert (rev out ≠ []) as Hout.
  { intros Hnil. rewrite Hnil in Hclean. apply Hnotroot.
    rewrite <- Hclean. reflexivity. }
  rewrite !concat_with_snoc; [| exact Hout | by destruct (rev out)].
  clearbody out. subst root. by rewrite !string_app_assoc.
Qed.

Lemma is_name_blocks : filepath.is_name "blocks".
Proof. split; [reflexivity | repeat split; discriminate]. Qed.

Lemma is_name_volumes : filepath.is_name "volumes".
Proof. split; [reflexivity | repeat split; discriminate]. Qed.

(** ** The backends, for every host *)

Section Backends.

Context {Host : Type} {collab : Collaborators Host} {DaemonDB : Type}.

Lemma StorageDrivers_overlay :
  StorageDrivers (DaemonDB := DaemonDB) !! "overlay" = Some OverlayFsFactory.
Proof. unfold StorageDrivers. apply lookup_insert_eq. Qed.

Lemma StorageDrivers_rawblock :
  StorageDrivers (DaemonDB := DaemonDB) !! "rawblock" = Some RawBlockFactory.
Proof.
  unfold StorageDrivers. rewrite lookup_insert_ne by discriminate.
  apply lookup_insert_eq.
Qed.

Lemma StorageDrivers_other (name : string) :
  name ≠ "overlay" → name ≠ "rawblock" →
  StorageDrivers (DaemonDB := DaemonDB) !! name = None.
Proof.
  intros Ho Hr. unfold StorageDrivers.
  rewrite !lookup_insert_ne by congruence. apply lookup_empty.
Qed.

(** C1. Selection by driver name.  For a name that has a registry entry,
    that is [overlay] or [rawblock], [StorageFactory] returns a backend
    and no error, and the backend's [Type()] is that name.  For any other
    name there is no registry entry, and [StorageFactory] returns no
    backend and the unsupported-driver error, whose message ends with the
    offending name. *)
Theorem StorageFactory_selects_by_name (sysinfo : dockertypes.Info) (db : DaemonDB) :
  let name := dockertypes.Driver sysinfo in
  (name ∈ ({[ "overlay"; "rawblock" ]} : gset string) →
     is_Some (StorageDrivers (DaemonDB := DaemonDB) !! name)
     ∧ ∃ st, StorageFactory sysinfo db = (Some st, None) ∧ Storage_Type st = name)
  ∧ (name ∉ ({[ "overlay"; "rawblock" ]} : gset string) →
     StorageDrivers (DaemonDB := DaemonDB) !! name = None
     ∧ StorageFactory sysinfo db
       = (None, Some (fmt_Errorf
                        ("hyperd can not support docker's backing storage: " ++ name)))).
Proof.
  intros name. unfold StorageFactory. fold name. split.
  - intros Hin. apply elem_of_union in Hin as [Hin | Hin];
      apply elem_of_singleton in Hin; rewrite Hin.
    + rewrite StorageDrivers_overlay. split; [eauto |].
      eexists. split; reflexivity.
    + rewrite StorageDrivers_rawblock. split; [eauto |].
      eexists. split; reflexivity.
  - intros Hout.
    assert (StorageDrivers (DaemonDB := DaemonDB) !! name = None) as Hnone.
    { apply StorageDrivers_other; intros ->; apply Hout; set_solver. }
    split; [exact Hnone |].
    destruct (StorageDrivers !! name) as [f |] eqn:Hlook; [| reflexivity].
    unfold factory in *. congruence.
Qed.

(** C2. Overlay [PrepareContainer].  When the union-mount helper fails,
    the result is no descriptor and exactly the helper's error.  When it
    succeeds, the result is no error and the descriptor with [Name] and
    [Source] both ["/" ++ containerId], [Fstype] ["dir"], [Format] ["vfs"]
    and [ReadOnly] the flag passed in. *)
Theorem OverlayFsStorage_PrepareContainer_result
    (o : OverlayFsStorage) (containerId sharedDir : string) (readonly : bool)
    (h : Host) :
  let mounted :=
    overlay_MountContainerToSharedDir
      containerId (OverlayFsStorage_RootPath o) sharedDir "" readonly h in
  let result := OverlayFsStorage_PrepareContainer o containerId sharedDir readonly h in
  (∀ e, mounted.1.2 = Some e → result.1 = (None, Some e))
  ∧ (mounted.1.2 = None →
     result = ((Some {| runv.Name := "/" ++ containerId;
                        runv.Source := "/" ++ containerId;
                        runv.Fstype := "dir";
                        runv.Format := "vfs";
                        runv.ReadOnly := readonly |}, None), mounted.2)).
Proof.
  unfold OverlayFsStorage_PrepareContainer. run_monad.
  destruct (overlay_MountContainerToSharedDir _ _ _ _ _ h) as [[mp err] h1].
  simpl. split.
  - intros e ->. destruct (glog_Error _ h1). reflexivity.
  - intros ->. reflexivity.
Qed.

(** C3. Raw-block [PrepareContainer] calls no helper and leaves the host
    as it found it: nothing is mounted and the filesystem is not touched.
    It returns the descriptor whose [Name] and [Source] are both the path
    of [containerId] under [<root>/blocks], with [Fstype] ["xfs"],
    [Format] ["raw"] and [ReadOnly] the flag passed in.  For a root in
    clean absolute form and a [containerId] that is a single name, that
    path is the string [<root>/blocks/containerId]. *)
Theorem RawBlockStorage_PrepareContainer_result
    (s : RawBlockStorage) (containerId sharedDir : string) (readonly : bool)
    (h : Host) :
  let devFullName :=
    filepath.Join [RawBlockStorage_RootPath s; "blocks"; containerId] in
  RawBlockStorage_PrepareContainer s containerId sharedDir readonly h
  = ((Some {| runv.Name := devFullName;
              runv.Source := devFullName;
              runv.Fstype := "xfs";
              runv.Format := "raw";
              runv.ReadOnly := readonly |}, None), h)
  ∧ (filepath.is_clean_dir (RawBlockStorage_RootPath s) →
     filepath.is_name containerId →
     devFullName = RawBlockStorage_RootPath s ++ "/blocks/" ++ containerId).
Proof.
  split; [reflexivity |].
  intros Hroot Hid.
  apply (Join_under_clean_dir _ "blocks" containerId Hroot is_name_blocks Hid).
Qed.

(** C10. Raw-block [PrepareContainer] cannot fail: on every input and in
    every state of the host it returns a descriptor and a nil error, and
    the result does not depend on the host, so on no image being looked
    up. *)
Theorem RawBlockStorage_PrepareContainer_infallible
    (s : RawBlockStorage) (containerId sharedDir : string) (readonly : bool)
    (h : Host) :
  (∃ vol, (RawBlockStorage_PrepareContainer s containerId sharedDir readonly h).1
          = (Some vol, None))
  ∧ ∀ h' : Host,
      (RawBlockStorage_PrepareContainer s containerId sharedDir readonly h').1
      = (RawBlockStorage_PrepareContainer s containerId sharedDir readonly h).1.
Proof. split; [eexists |]; reflexivity. Qed.

(** C6. A successful [CreateVolume] fills in the spec.  Overlay: the
    directory helper was called with [podId] and the spec's name and
    succeeded, and the spec comes back with [Source] the path the helper
    returned, [Format] ["vfs"] and [Fstype] ["dir"].  Raw block: an image
    with an xfs filesystem was created at the path of [podId-Name] under
    [<root>/volumes], of the default volume size, the same for every pod
    and spec (the constant itself when it fits 64 bits unsigned), and the
    spec comes back with [Source] that path, [Format] ["raw"] and [Fstype]
    ["xfs"]; for a root in clean absolute form and a [podId-Name] that is a
    single name, that path is the string [<root>/volumes/podId-Name].  The
    name is kept. *)
Theorem CreateVolume_success_fills_spec
    (podId : string) (spec spec' : apitypes.UserVolume) (h h' : Host) :
  (∀ o, OverlayFsStorage_CreateVolume o podId spec h = ((None, spec'), h') →
     ∃ volName,
       storage_CreateVFSVolume podId (apitypes.Name spec) h = ((volName, None), h')
       ∧ spec' = {| apitypes.Name := apitypes.Name spec;
                    apitypes.Source := volName;
                    apitypes.Format := "vfs";
                    apitypes.Fstype := "dir" |})
  ∧ (∀ s, RawBlockStorage_CreateVolume s podId spec h = ((None, spec'), h') →
     let block := filepath.Join [RawBlockStorage_RootPath s; "volumes";
                                 podId ++ "-" ++ apitypes.Name spec] in
     rawblock_CreateBlock block "xfs" "" (uint64 storage_DEFAULT_DM_VOL_SIZE) h
     = (None, h')
     ∧ (0 ≤ storage_DEFAULT_DM_VOL_SIZE < 2 ^ 64 →
        rawblock_CreateBlock block "xfs" "" storage_DEFAULT_DM_VOL_SIZE h = (None, h'))
     ∧ spec' = {| apitypes.Name := apitypes.Name spec;
                  apitypes.Source := block;
                  apitypes.Format := "raw";
                  apitypes.Fstype := "xfs" |}
     ∧ (filepath.is_clean_dir (RawBlockStorage_RootPath s) →
        filepath.is_name (podId ++ "-" ++ apitypes.Name spec) →
        block = RawBlockStorage_RootPath s ++ "/volumes/" ++ podId ++ "-"
                ++ apitypes.Name spec)).
Proof.
  split.
  - intros o. unfold OverlayFsStorage_CreateVolume. run_monad.
    destruct (storage_CreateVFSVolume _ _ h) as [[volName [e|]] h1];
      simpl; intros Hres; inversion Hres; subst.
    exists volName. split; reflexivity.
  - intros s. unfold RawBlockStorage_CreateVolume. run_monad.
    destruct (rawblock_CreateBlock _ _ _ _ h) as [[e|] h1] eqn:Hcall;
      simpl; intros Hres; inversion Hres; subst.
    split; [reflexivity |]. split.
    { intros Hfits. rewrite <- Hcall. unfold uint64.
      by rewrite Z.mod_small. }
    split; [reflexivity |].
    intros Hroot Hname.
    apply (Join_under_clean_dir _ "volumes" _ Hroot is_name_volumes Hname).
Qed.

(** C7. A failed [CreateVolume] leaves the spec alone, in both backends:
    when the call returns an error, the spec it hands back is the spec it
    was given, so [Source], [Fstype] and [Format] hold their old values. *)
Theorem CreateVolume_failure_keeps_spec
    (podId : string) (spec spec' : apitypes.UserVolume) (e : error) (h h' : Host) :
  (∀ o, OverlayFsStorage_CreateVolume o podId spec h = ((Some e, spec'), h') →
     spec' = spec)
  ∧ (∀ s, RawBlockStorage_CreateVolume s podId spec h = ((Some e, spec'), h') →
     spec' = spec).
Proof.
  split.
  - intros o. unfold OverlayFsStorage_CreateVolume. run_monad.
    destruct (storage_CreateVFSVolume _ _ h) as [[volName [e0|]] h1];
      simpl; intros Hres; inversion Hres; subst; reflexivity.
  - intros s. unfold RawBlockStorage_CreateVolume. run_monad.
    destruct (rawblock_CreateBlock _ _ _ _ h) as [[e0|] h1];
      simpl; intros Hres; inversion Hres; subst; reflexivity.
Qed.

End Backends.

Section Propagation.

Context {Host : Type} {collab : Collaborators Host}.

(** C5, as the code has it.  The result of the helper call an operation
    ends on, or gives up on, is what the operation returns: the mount
    error in overlay [PrepareContainer], the result of the unmount in
    overlay [CleanupContainer], the error of the directory helper and of
    the image creation in [CreateVolume], the result of [os.MkdirAll] in
    raw-block [Init], and in [InjectFile] of both backends the error of
    the acquire step (mount, image attach) or else the result of the file
    copy.  The result of the release step of [InjectFile] (the deferred
    unmount, the deferred detach) is not part of what [InjectFile]
    returns. *)
Theorem collaborator_failures_returned (h : Host) :
  (∀ o id dir ro e,
     (overlay_MountContainerToSharedDir id (OverlayFsStorage_RootPath o) dir "" ro h).1.2
     = Some e →
     (OverlayFsStorage_PrepareContainer o id dir ro h).1 = (None, Some e))
  ∧ (∀ o id dir,
     OverlayFsStorage_CleanupContainer o id dir h
     = syscall_Unmount (filepath.Join [dir; id; "rootfs"]) 0 h)
  ∧ (∀ o src id target base perm uid gid,
     let mounted :=
       overlay_MountContainerToSharedDir id (OverlayFsStorage_RootPath o) base "" false h in
     let result := OverlayFsStorage_InjectFile o src id target base perm uid gid h in
     (∀ e, mounted.1.2 = Some e → result.1 = Some e)
     ∧ (mounted.1.2 = None →
        result.1 = (storage_FsInjectFile src id target base perm uid gid mounted.2).1))
  ∧ (∀ o podId spec e,
     (storage_CreateVFSVolume podId (apitypes.Name spec) h).1.2 = Some e →
     (OverlayFsStorage_CreateVolume o podId spec h).1 = (Some e, spec))
  ∧ (∀ s,
     RawBlockStorage_Init s h
     = os_MkdirAll (filepath.Join [RawBlockStorage_RootPath s; "volumes"])
         (octal [0; 7; 0; 0]) h)
  ∧ (∀ s src id target base perm uid gid,
     let got :=
       rawblock_GetImage (filepath.Join [RawBlockStorage_RootPath s; "blocks"])
         base id "xfs" "" uid gid h in
     let result := RawBlockStorage_InjectFile s src id target base perm uid gid h in
     (∀ e, got.1 = Some e → result.1 = Some e)
     ∧ (got.1 = None →
        result.1 = (storage_FsInjectFile src id target base perm uid gid got.2).1))
  ∧ (∀ s podId spec e,
     (rawblock_CreateBlock
        (filepath.Join [RawBlockStorage_RootPath s; "volumes";
                        podId ++ "-" ++ apitypes.Name spec])
        "xfs" "" (uint64 storage_DEFAULT_DM_VOL_SIZE) h).1 = Some e →
     (RawBlockStorage_CreateVolume s podId spec h).1 = (Some e, spec)).
Proof.
  repeat split.
  - intros o id dir ro e. unfold OverlayFsStorage_PrepareContainer. run_monad.
    destruct (overlay_MountContainerToSharedDir _ _ _ _ _ h) as [[mp err] h1].
    simpl. intros ->. destruct (glog_Error _ h1). reflexivity.
  - unfold OverlayFsStorage_InjectFile. run_monad.
    destruct (overlay_MountContainerToSharedDir _ _ _ _ _ h) as [[mp err] h1].
    simpl. intros e ->. destruct (glog_Error _ h1). reflexivity.
  - unfold OverlayFsStorage_InjectFile. run_monad.
    destruct (overlay_MountContainerToSharedDir _ _ _ _ _ h) as [[mp err] h1].
    simpl. intros ->.
    destruct (storage_FsInjectFile _ _ _ _ _ _ _ h1) as [r h2].
    destruct (syscall_Unmount _ _ h2). reflexivity.
  - intros o podId spec e. unfold OverlayFsStorage_CreateVolume. run_monad.
    destruct (storage_CreateVFSVolume _ _ h) as [[volName err] h1].
    simpl. intros ->. reflexivity.
  - intros s. unfold RawBlockStorage_Init. run_monad.
    destruct (os_MkdirAll _ _ h) as [[e|] h1]; reflexivity.
  - unfold RawBlockStorage_InjectFile. run_monad.
    destruct (rawblock_GetImage _ _ _ _ _ _ _ h) as [err h1].
    simpl. intros e ->. reflexivity.
  - unfold RawBlockStorage_InjectFile. run_monad.
    destruct (rawblock_GetImage _ _ _ _ _ _ _ h) as [err h1].
    simpl. intros ->.
    destruct (storage_FsInjectFile _ _ _ _ _ _ _ h1) as [r h2].
    destruct (rawblock_PutImage _ _ h2). reflexivity.
  - intros s podId spec e. unfold RawBlockStorage_CreateVolume. run_monad.
    destruct (rawblock_CreateBlock _ _ _ _ h) as [err h1].
    simpl. intros ->. reflexivity.
Qed.

End Propagation.

(** ** What the backends need from the host *)

Section Laws.

Context {Host : Type} {collab : Collaborators Host} {view : HostView Host}.

(** The union-mount helper, when it succeeds, has placed one more mount on
    the mount point of the container under the shared directory; when it
    fails it has mounted nothing. *)
Hypothesis mount_ok : ∀ id root dir label ro h mp h',
  overlay_MountContainerToSharedDir id root dir label ro h = ((mp, None), h') →
  mount_count (filepath.Join [dir; id; "rootfs"]) h'
  = S (mount_count (filepath.Join [dir; id; "rootfs"]) h).

Hypothesis mount_failed : ∀ id root dir label ro h mp e h' p,
  overlay_MountContainerToSharedDir id root dir label ro h = ((mp, Some e), h') →
  mount_count p h' = mount_count p h.

(** An unmount that returns nil has released one mount of its target; one
    that returns an error has released none; and on a path with no mount
    it returns an error and changes nothing. *)
Hypothesis unmount_released : ∀ p h h',
  syscall_Unmount p 0 h = (None, h') →
  mount_count p h' = pred (mount_count p h).

Hypothesis unmount_refused : ∀ p h e h',
  syscall_Unmount p 0 h = (Some e, h') →
  mount_count p h' = mount_count p h.

Hypothesis unmount_not_mounted : ∀ p h,
  mount_count p h = 0%nat →
  ∃ e, syscall_Unmount p 0 h = (Some e, h).

(** The image helper attaches one image under [(mntDir, id)] when it
    succeeds and none when it fails; a detach that returns nil has
    released one, a detach that returns an error none. *)
Hypothesis attach_ok : ∀ graph dir id fstype label uid gid h h',
  rawblock_GetImage graph dir id fstype label uid gid h = (None, h') →
  attach_count dir id h' = S (attach_count dir id h).

Hypothesis attach_failed : ∀ graph dir id fstype label uid gid h e h',
  rawblock_GetImage graph dir id fstype label uid gid h = (Some e, h') →
  attach_count dir id h' = attach_count dir id h.

Hypothesis detach_released : ∀ dir id h h',
  rawblock_PutImage dir id h = (None, h') →
  attach_count dir id h' = pred (attach_count dir id h).

Hypothesis detach_refused : ∀ dir id h e h',
  rawblock_PutImage dir id h = (Some e, h') →
  attach_count dir id h' = attach_count dir id h.

(** Copying a file and writing to the log mount and unmount nothing. *)
Hypothesis copy_keeps_mounts : ∀ src id target base perm uid gid h p,
  mount_count p (storage_FsInjectFile src id target base perm uid gid h).2
  = mount_count p h.

Hypothesis copy_keeps_attached : ∀ src id target base perm uid gid h dir id',
  attach_count dir id' (storage_FsInjectFile src id target base perm uid gid h).2
  = attach_count dir id' h.

Hypothesis log_keeps_mounts : ∀ msg h p,
  mount_count p (glog_Error msg h).2 = mount_count p h.

(** [os.MkdirAll] does nothing and succeeds on a directory that exists;
    a directory it creates has the permission bits it was given. *)
Hypothesis mkdir_existing : ∀ p perm h m,
  dir_perm p h = Some m → os_MkdirAll p perm h = (None, h).

Hypothesis mkdir_created : ∀ p perm h h',
  dir_perm p h = None → os_MkdirAll p perm h = (None, h') →
  dir_perm p h' = Some perm.

(** C4, as the code has it.  What [InjectFile] leaves mounted is decided
    by its release step.  In both backends, on every input: if the acquire
    step (the union mount, the image attach) fails, [InjectFile] returns
    with as many mounts on [<baseDir>/<mountId>/rootfs] (images attached
    under [(baseDir, mountId)]) as before the call.  If it succeeds, the
    release (the unmount of that path, the detach of that image) is run
    once, after the copy and whatever the copy returned, and the host
    [InjectFile] returns is the one the release leaves: with as many
    mounts as before the call when the release returned nil, and with one
    more, the transient mount, when the release returned an error. *)
Theorem InjectFile_mount_after_return
    (src : io_Reader) (mountId target baseDir : string) (perm uid gid : Z)
    (h : Host) :
  (∀ o,
     let rootfs := filepath.Join [baseDir; mountId; "rootfs"] in
     let mounted :=
       overlay_MountContainerToSharedDir
         mountId (OverlayFsStorage_RootPath o) baseDir "" false h in
     let copied :=
       storage_FsInjectFile src mountId target baseDir perm uid gid mounted.2 in
     let released := syscall_Unmount rootfs 0 copied.2 in
     let result :=
       OverlayFsStorage_InjectFile o src mountId target baseDir perm uid gid h in
     (mounted.1.2 ≠ None → mount_count rootfs result.2 = mount_count rootfs h)
     ∧ (mounted.1.2 = None →
        result.2 = released.2
        ∧ (released.1 = None → mount_count rootfs result.2 = mount_count rootfs h)
        ∧ (released.1 ≠ None →
           mount_count rootfs result.2 = S (mount_count rootfs h))))
  ∧ (∀ s,
     let got :=
       rawblock_GetImage (filepath.Join [RawBlockStorage_RootPath s; "blocks"])
         baseDir mountId "xfs" "" uid gid h in
     let copied :=
       storage_FsInjectFile src mountId target baseDir perm uid gid got.2 in
     let released := rawblock_PutImage baseDir mountId copied.2 in
     let result :=
       RawBlockStorage_InjectFile s src mountId target baseDir perm uid gid h in
     (got.1 ≠ None →
      attach_count baseDir mountId result.2 = attach_count baseDir mountId h)
     ∧ (got.1 = None →
        result.2 = released.2
        ∧ (released.1 = None →
           attach_count baseDir mountId result.2 = attach_count baseDir mountId h)
        ∧ (released.1 ≠ None →
           attach_count baseDir mountId result.2
           = S (attach_count baseDir mountId h)))).
Proof.
  split.
  - intros o rootfs. unfold OverlayFsStorage_InjectFile. run_monad. fold rootfs.
    destruct (overlay_MountContainerToSharedDir _ _ _ _ _ h)
      as [[mp [e|]] h1] eqn:Hmount; simpl.
    + split; [| discriminate]. intros _.
      pose proof (log_keeps_mounts
                    ("got error when mount container to share dir " ++ Error e) h1
                    rootfs) as Hlog.
      destruct (glog_Error _ h1) as [u h2]. simpl in *.
      rewrite Hlog. eapply mount_failed, Hmount.
    + split; [intros Hne; by destruct Hne |]. intros _.
      apply mount_ok in Hmount. fold rootfs in Hmount.
      pose proof (copy_keeps_mounts src mountId target baseDir perm uid gid h1 rootfs)
        as Hcopy.
      destruct (storage_FsInjectFile _ _ _ _ _ _ _ h1) as [r h2]. simpl in *.
      destruct (syscall_Unmount rootfs 0 h2) as [[e|] h3] eqn:Hun; simpl.
      * split; [reflexivity |]. split; [discriminate |]. intros _.
        rewrite (unmount_refused _ _ _ _ Hun). lia.
      * split; [reflexivity |]. split; [| intros Hne; by destruct Hne]. intros _.
        rewrite (unmount_released _ _ _ Hun). lia.
  - intros s. unfold RawBlockStorage_InjectFile. run_monad.
    destruct (rawblock_GetImage _ _ _ _ _ _ _ h) as [[e|] h1] eqn:Hget; simpl.
    + split; [| discriminate]. intros _. eapply attach_failed, Hget.
    + split; [intros Hne; by destruct Hne |]. intros _.
      apply attach_ok in Hget.
      pose proof (copy_keeps_attached src mountId target baseDir perm uid gid h1
                    baseDir mountId) as Hcopy.
      destruct (storage_FsInjectFile _ _ _ _ _ _ _ h1) as [r h2]. simpl in *.
      destruct (rawblock_PutImage baseDir mountId h2) as [[e|] h3] eqn:Hput; simpl.
      * split; [reflexivity |]. split; [discriminate |]. intros _.
        rewrite (detach_refused _ _ _ _ _ Hput). lia.
      * split; [reflexivity |]. split; [| intros Hne; by destruct Hne]. intros _.
        rewrite (detach_released _ _ _ _ Hput). lia.
Qed.

(** C8, as the code has it.  Raw-block [Init] is one call of [os.MkdirAll]
    on [<root>/volumes] with mode 0700, and returns what that call
    returns, so a failure to create the directory comes back as it is.
    When [Init] succeeds the directory is there: created with mode 0700 if
    it was not there before, and left as it was, mode included, if it
    was.  A second [Init] then succeeds as well and changes nothing, so the
    directory is still there with the same mode. *)
Theorem RawBlockStorage_Init_idempotent (s : RawBlockStorage) (h : Host) :
  let volumes := filepath.Join [RawBlockStorage_RootPath s; "volumes"] in
  RawBlockStorage_Init s h = os_MkdirAll volumes (octal [0; 7; 0; 0]) h
  ∧ ∀ h1, RawBlockStorage_Init s h = (None, h1) →
      is_Some (dir_perm volumes h1)
      ∧ (dir_perm volumes h = None → dir_perm volumes h1 = Some (octal [0; 7; 0; 0]))
      ∧ (is_Some (dir_perm volumes h) → h1 = h)
      ∧ RawBlockStorage_Init s h1 = (None, h1).
Proof.
  intros volumes.
  assert (∀ h0, RawBlockStorage_Init s h0
                = os_MkdirAll volumes (octal [0; 7; 0; 0]) h0) as Hinit.
  { intros h0. unfold RawBlockStorage_Init. run_monad. fold volumes.
    destruct (os_MkdirAll _ _ h0) as [[e|] h1]; reflexivity. }
  split; [apply Hinit |].
  intros h1. rewrite !Hinit. intros Hfirst.
  assert (is_Some (dir_perm volumes h1)) as [m Hm].
  { destruct (dir_perm volumes h) as [m|] eqn:Hbefore.
    - rewrite (mkdir_existing _ _ _ _ Hbefore) in Hfirst.
      inversion Hfirst; subst. eauto.
    - rewrite (mkdir_created _ _ _ _ Hbefore Hfirst). eauto. }
  split; [eauto |]. split; [| split].
  - intros Hbefore. eapply mkdir_created; eassumption.
  - intros [m0 Hbefore]. rewrite (mkdir_existing _ _ _ _ Hbefore) in Hfirst.
    by inversion Hfirst.
  - eapply mkdir_existing, Hm.
Qed.

(** C9, as the code has it.  Overlay [CleanupContainer] is the unmount of
    [<sharedDir>/<id>/rootfs] and returns what the unmount returns.  After
    a successful [PrepareContainer] there is one more mount on that path.
    If the [CleanupContainer] that follows returns an error, that mount
    stays.  If it returns nil, as many mounts are left there as before the
    prepare; with none there before, none is left, and a second
    [CleanupContainer] returns the error of the unmount and changes
    nothing. *)
Theorem OverlayFsStorage_prepare_cleanup
    (o : OverlayFsStorage) (id dir : string) (readonly : bool)
    (h h1 : Host) (vol : runv.VolumeDescription) :
  let rootfs := filepath.Join [dir; id; "rootfs"] in
  OverlayFsStorage_PrepareContainer o id dir readonly h = ((Some vol, None), h1) →
  (∀ h', OverlayFsStorage_CleanupContainer o id dir h' = syscall_Unmount rootfs 0 h')
  ∧ mount_count rootfs h1 = S (mount_count rootfs h)
  ∧ (∀ e h2,
       OverlayFsStorage_CleanupContainer o id dir h1 = (Some e, h2) →
       mount_count rootfs h2 = S (mount_count rootfs h))
  ∧ (∀ h2,
       OverlayFsStorage_CleanupContainer o id dir h1 = (None, h2) →
       mount_count rootfs h2 = mount_count rootfs h
       ∧ (mount_count rootfs h = 0%nat →
          ∃ e,
            OverlayFsStorage_CleanupContainer o id dir h2 = (Some e, h2)
            ∧ syscall_Unmount rootfs 0 h2 = (Some e, h2))).
Proof.
  intros rootfs Hprepare.
  split; [reflexivity |].
  assert (mount_count rootfs h1 = S (mount_count rootfs h)) as Hone.
  { revert Hprepare. unfold OverlayFsStorage_PrepareContainer. run_monad.
    destruct (overlay_MountContainerToSharedDir _ _ _ _ _ h)
      as [[mp [e|]] h0] eqn:Hmount; simpl.
    - destruct (glog_Error _ h0). intros Hres. inversion Hres.
    - intros Hres. inversion Hres; subst.
      apply mount_ok in Hmount. exact Hmount. }
  split; [exact Hone |].
  unfold OverlayFsStorage_CleanupContainer. fold rootfs. split.
  - intros e h2 Hun. rewrite (unmount_refused _ _ _ _ Hun). exact Hone.
  - intros h2 Hun.
    assert (mount_count rootfs h2 = mount_count rootfs h) as Hback.
    { rewrite (unmount_released _ _ _ Hun), Hone. reflexivity. }
    split; [exact Hback |].
    intros Hnone. rewrite Hnone in Hback.
    destruct (unmount_not_mounted rootfs h2 Hback) as [e He].
    exists e. split; exact He.
Qed.

End Laws.

(** ** The reference host keeps the laws *)

Lemma occurrences_elem_of {A} `{EqDecision A} (x : A) (l : list A) :
  (0 < occurrences x l)%nat ↔ x ∈ l.
Proof.
  induction l as [| y l IH]; simpl.
  - split; [lia | intros Hin; inversion Hin].
  - rewrite elem_of_cons. case_decide; [split; [auto | lia] |].
    rewrite <- IH. simpl. split; [auto | intros [Heq | Hpos]; [done | exact Hpos]].
Qed.

Lemma occurrences_remove_first {A} `{EqDecision A} (x : A) (l : list A) :
  occurrences x (remove_first x l) = pred (occurrences x l).
Proof.
  induction l as [| y l IH]; simpl; [reflexivity |].
  case_decide; simpl; [reflexivity |].
  rewrite decide_False by assumption. exact IH.
Qed.

Section RefLaws.

Context (env : Env).

Lemma ref_mount_ok id root dir label ro h mp h' :
  ref.MountContainerToSharedDir env id root dir label ro h = ((mp, None), h') →
  mount_count (filepath.Join [dir; id; "rootfs"]) h'
  = S (mount_count (filepath.Join [dir; id; "rootfs"]) h).
Proof.
  simpl. unfold ref.MountContainerToSharedDir.
  case_decide; intros Hres; inversion Hres; subst; simpl.
  rewrite decide_True by reflexivity. reflexivity.
Qed.

Lemma ref_mount_failed id root dir label ro h mp e h' p :
  ref.MountContainerToSharedDir env id root dir label ro h = ((mp, Some e), h') →
  mount_count p h' = mount_count p h.
Proof.
  simpl. unfold ref.MountContainerToSharedDir.
  case_decide; intros Hres; inversion Hres; subst; reflexivity.
Qed.

Lemma ref_unmount_released p h h' :
  ref.Unmount env p 0 h = (None, h') →
  mount_count p h' = pred (mount_count p h).
Proof.
  unfold ref.Unmount. repeat case_decide; try discriminate.
  - intros Hres. inversion Hres; subst. simpl. apply occurrences_remove_first.
  - destruct (dirs h !! p); discriminate.
Qed.

Lemma ref_unmount_refused p h e h' :
  ref.Unmount env p 0 h = (Some e, h') →
  mount_count p h' = mount_count p h.
Proof.
  unfold ref.Unmount. repeat case_decide; try discriminate.
  - intros Hres. by inversion Hres.
  - destruct (dirs h !! p); intros Hres; by inversion Hres.
Qed.

Lemma ref_unmount_mounted p h :
  busy env = ∅ →
  (0 < mount_count p h)%nat →
  ∃ h', ref.Unmount env p 0 h = (None, h')
        ∧ mount_count p h' = pred (mount_count p h).
Proof.
  intros Hcalm Hpos. simpl in *. unfold ref.Unmount.
  apply occurrences_elem_of in Hpos. rewrite decide_True by assumption.
  rewrite decide_False by (rewrite Hcalm; apply not_elem_of_empty).
  eexists. split; [reflexivity |]. simpl. apply occurrences_remove_first.
Qed.

Lemma ref_unmount_not_mounted p h :
  mount_count p h = 0%nat →
  ∃ e, ref.Unmount env p 0 h = (Some e, h).
Proof.
  intros Hzero. simpl in *. unfold ref.Unmount.
  rewrite decide_False.
  - destruct (dirs h !! p); eauto.
  - intros Hin. apply occurrences_elem_of in Hin. lia.
Qed.

Lemma ref_attach_ok graph dir id fstype label uid gid h h' :
  ref.GetImage env graph dir id fstype label uid gid h = (None, h') →
  attach_count dir id h' = S (attach_count dir id h).
Proof.
  simpl. unfold ref.GetImage.
  destruct (images h !! _); intros Hres; inversion Hres; subst; simpl.
  rewrite decide_True by reflexivity. reflexivity.
Qed.

Lemma ref_attach_failed graph dir id fstype label uid gid h e h' :
  ref.GetImage env graph dir id fstype label uid gid h = (Some e, h') →
  attach_count dir id h' = attach_count dir id h.
Proof.
  simpl. unfold ref.GetImage.
  destruct (images h !! _); intros Hres; inversion Hres; subst; reflexivity.
Qed.

Lemma ref_detach_released dir id h h' :
  ref.PutImage env dir id h = (None, h') →
  attach_count dir id h' = pred (attach_count dir id h).
Proof.
  unfold ref.PutImage. destruct (decide ((dir, id) ∈ attached h)) as [Hin | Hout].
  - case_decide; [discriminate |].
    intros Hres. inversion Hres; subst. simpl. apply occurrences_remove_first.
  - intros Hres. inversion Hres; subst. simpl.
    destruct (occurrences (dir, id) (attached h')) as [| n] eqn:Hocc; [reflexivity |].
    exfalso. apply Hout, occurrences_elem_of. lia.
Qed.

Lemma ref_detach_refused dir id h e h' :
  ref.PutImage env dir id h = (Some e, h') →
  attach_count dir id h' = attach_count dir id h.
Proof.
  unfold ref.PutImage. repeat case_decide; try discriminate.
  intros Hres. by inversion Hres.
Qed.

Lemma ref_detach_attached dir id h :
  busy env = ∅ →
  (0 < attach_count dir id h)%nat →
  attach_count dir id (ref.PutImage env dir id h).2 = pred (attach_count dir id h).
Proof.
  intros Hcalm Hpos. simpl in *. unfold ref.PutImage.
  apply occurrences_elem_of in Hpos. rewrite decide_True by assumption.
  rewrite decide_False by (rewrite Hcalm; apply not_elem_of_empty).
  simpl. apply occurrences_remove_first.
Qed.

Lemma ref_copy_keeps_mounts src id target base perm uid gid h p :
  mount_count p (ref.FsInjectFile env src id target base perm uid gid h).2
  = mount_count p h.
Proof. simpl. unfold ref.FsInjectFile. case_decide; reflexivity. Qed.

Lemma ref_copy_keeps_attached src id target base perm uid gid h dir id' :
  attach_count dir id' (ref.FsInjectFile env src id target base perm uid gid h).2
  = attach_count dir id' h.
Proof. simpl. unfold ref.FsInjectFile. case_decide; reflexivity. Qed.

Lemma ref_log_keeps_mounts msg h p :
  mount_count p (ref.glog_Error msg h).2 = mount_count p h.
Proof. reflexivity. Qed.

Lemma ref_mkdir_existing p perm h m :
  dir_perm p h = Some m → ref.MkdirAll env p perm h = (None, h).
Proof. simpl. unfold ref.MkdirAll. intros ->. reflexivity. Qed.

(** A walk that ends without an error has made every directory on it: one
    that was missing now has the bits asked for. *)
Lemma mkdir_each_made files perm ds m m' d :
  ref.mkdir_each env files perm ds m = (None, m') →
  (m !! d = Some perm → m' !! d = Some perm)
  ∧ (d ∈ ds → m !! d = None → m' !! d = Some perm).
Proof.
  revert m. induction ds as [| x ds IH]; intros m; simpl.
  - intros Hres. inversion Hres; subst. split; [auto |]. intros Hin. inversion Hin.
  - destruct (m !! x) as [v |] eqn:Hx.
    + intros Hres. destruct (IH m Hres) as [Hkeep Hnew]. split; [exact Hkeep |].
      intros Hin Hd. apply elem_of_cons in Hin as [-> | Hin]; [congruence | auto].
    + repeat case_decide; try discriminate.
      intros Hres. destruct (IH _ Hres) as [Hkeep Hnew]. split.
      * intros Hd. apply Hkeep. rewrite lookup_insert_ne by congruence. exact Hd.
      * intros Hin Hd. destruct (decide (d = x)) as [-> | Hne].
        -- apply Hkeep. apply lookup_insert_eq.
        -- apply elem_of_cons in Hin as [-> | Hin]; [done |].
           apply Hnew; [exact Hin |]. by rewrite lookup_insert_ne.
Qed.

Lemma ref_mkdir_created p perm h h' :
  dir_perm p h = None → ref.MkdirAll env p perm h = (None, h') →
  dir_perm p h' = Some perm.
Proof.
  simpl. unfold ref.MkdirAll. intros Hnone. rewrite Hnone.
  destruct (ref.mkdir_each _ _ _ _ _) as [err m] eqn:Heach.
  intros Hres. inversion Hres; subst. simpl.
  eapply (mkdir_each_made _ _ _ _ _ p Heach); [| exact Hnone].
  apply elem_of_app. right. apply elem_of_cons. by left.
Qed.

End RefLaws.

Lemma calm_not_busy : busy calm = ∅.
Proof. reflexivity. Qed.

(** ** The statements at work on the reference host *)

Example OverlayFsFactory_builds_example :
  OverlayFsFactory (collab := RefCollaborators calm) {| dockertypes.Driver := "overlay" |} tt
  = (Some (Storage_overlay example_overlay), None).
Proof. reflexivity. Qed.

Example RawBlockFactory_builds_example :
  RawBlockFactory (collab := RefCollaborators calm) {| dockertypes.Driver := "rawblock" |} tt
  = (Some (Storage_rawblock example_rawblock), None).
Proof. reflexivity. Qed.

Example RawBlockStorage_PrepareContainer_c1 :
  RawBlockStorage_PrepareContainer example_rawblock "c1" "/run/share" true fresh
  = ((Some {| runv.Name := "/var/lib/hyper/rawblock/blocks/c1";
              runv.Source := "/var/lib/hyper/rawblock/blocks/c1";
              runv.Fstype := "xfs";
              runv.Format := "raw";
              runv.ReadOnly := true |}, None), fresh).
Proof. reflexivity. Qed.

Lemma StorageFactory_selects_by_name_witness :
  (∃ st, StorageFactory (collab := RefCollaborators calm)
           {| dockertypes.Driver := "rawblock" |} tt = (Some st, None)
         ∧ @Storage_Type RefHost Storage
             (Storage_interface (collab := RefCollaborators calm)) st = "rawblock")
  ∧ StorageFactory (collab := RefCollaborators calm)
      {| dockertypes.Driver := "btrfs" |} tt
    = (None, Some (fmt_Errorf "hyperd can not support docker's backing storage: btrfs")).
Proof.
  split.
  - apply (StorageFactory_selects_by_name (collab := RefCollaborators calm)
             {| dockertypes.Driver := "rawblock" |} tt).
    simpl. apply elem_of_union_r, elem_of_singleton. reflexivity.
  - apply (StorageFactory_selects_by_name (collab := RefCollaborators calm)
             {| dockertypes.Driver := "btrfs" |} tt).
    simpl. intros Hin. apply elem_of_union in Hin as [Hin | Hin];
      apply elem_of_singleton in Hin; discriminate Hin.
Defined.

Lemma OverlayFsStorage_PrepareContainer_result_witness :
  (OverlayFsStorage_PrepareContainer (collab := RefCollaborators broken)
     example_overlay "c1" "/run/share" true fresh).1
  = (None, Some (fmt_Errorf "error creating overlay mount to /run/share/c1/rootfs"))
  ∧ (OverlayFsStorage_PrepareContainer (collab := RefCollaborators calm)
       example_overlay "c1" "/run/share" true fresh).1
    = (Some {| runv.Name := "/c1"; runv.Source := "/c1"; runv.Fstype := "dir";
               runv.Format := "vfs"; runv.ReadOnly := true |}, None).
Proof.
  split.
  - apply (OverlayFsStorage_PrepareContainer_result (collab := RefCollaborators broken)
             example_overlay "c1" "/run/share" true fresh).
    reflexivity.
  - rewrite (proj2 (OverlayFsStorage_PrepareContainer_result
                      (collab := RefCollaborators calm)
                      example_overlay "c1" "/run/share" true fresh) eq_refl).
    reflexivity.
Defined.

Lemma example_rawblock_root_clean :
  filepath.is_clean_dir (RawBlockStorage_RootPath example_rawblock).
Proof. split; [reflexivity | split; [reflexivity | discriminate]]. Qed.

Lemma RawBlockStorage_PrepareContainer_result_witness :
  filepath.Join [RawBlockStorage_RootPath example_rawblock; "blocks"; "c1"]
  = "/var/lib/hyper/rawblock/blocks/c1".
Proof.
  apply (RawBlockStorage_PrepareContainer_result
           example_rawblock "c1" "/run/share" true fresh).
  - exact example_rawblock_root_clean.
  - split; [reflexivity | repeat split; discriminate].
Defined.

Lemma CreateVolume_success_fills_spec_witness :
  (OverlayFsStorage_CreateVolume (collab := RefCollaborators calm)
     example_overlay "p1" example_volume fresh).1.2
  = {| apitypes.Name := "data";
       apitypes.Source := "/var/lib/hyper/vfs/volumes/p1/data";
       apitypes.Format := "vfs"; apitypes.Fstype := "dir" |}
  ∧ (RawBlockStorage_CreateVolume (collab := RefCollaborators calm)
       example_rawblock "p1" example_volume fresh).1.2
    = {| apitypes.Name := "data";
         apitypes.Source := "/var/lib/hyper/rawblock/volumes/p1-data";
         apitypes.Format := "raw"; apitypes.Fstype := "xfs" |}
  ∧ images (RawBlockStorage_CreateVolume (collab := RefCollaborators calm)
              example_rawblock "p1" example_volume fresh).2
    !! "/var/lib/hyper/rawblock/volumes/p1-data"
    = Some ("xfs", 2147483648).
Proof.
  split.
  - pose (res := OverlayFsStorage_CreateVolume (collab := RefCollaborators calm)
                   example_overlay "p1" example_volume fresh).
    destruct (proj1 (CreateVolume_success_fills_spec (collab := RefCollaborators calm)
                       "p1" example_volume res.1.2 fresh res.2)
                example_overlay eq_refl) as (volName & Hcall & Hspec).
    fold res. rewrite Hspec. inversion Hcall. reflexivity.
  - pose (res := RawBlockStorage_CreateVolume (collab := RefCollaborators calm)
                   example_rawblock "p1" example_volume fresh).
    destruct (proj2 (CreateVolume_success_fills_spec (collab := RefCollaborators calm)
                       "p1" example_volume res.1.2 fresh res.2)
                example_rawblock eq_refl) as (Hcall & Hsize & Hspec & Hpath).
    fold res. split.
    + rewrite Hspec, Hpath.
      * reflexivity.
      * exact example_rawblock_root_clean.
      * split; [reflexivity | repeat split; discriminate].
    + assert (0 ≤ 2147483648 < 2 ^ 64) as Hfits by (split; [done | reflexivity]).
      apply Hsize in Hfits. apply (f_equal snd) in Hfits. simpl in Hfits.
      rewrite <- Hfits. reflexivity.
Defined.

Lemma CreateVolume_failure_keeps_spec_witness :
  (OverlayFsStorage_CreateVolume (collab := RefCollaborators broken)
     example_overlay "p1" example_volume fresh).1.2 = example_volume
  ∧ (RawBlockStorage_CreateVolume (collab := RefCollaborators broken)
       example_rawblock "p1" example_volume fresh).1.2 = example_volume.
Proof.
  split.
  - apply (proj1 (CreateVolume_failure_keeps_spec (collab := RefCollaborators broken)
                    "p1" example_volume _
                    (os_PathError "mkdir" "/var/lib/hyper/vfs/volumes/p1/data" EACCES)
                    fresh fresh) example_overlay).
    reflexivity.
  - apply (proj2 (CreateVolume_failure_keeps_spec (collab := RefCollaborators broken)
                    "p1" example_volume _
                    (os_PathError "create" "/var/lib/hyper/rawblock/volumes/p1-data" EACCES)
                    fresh fresh) example_rawblock).
    reflexivity.
Defined.

(** C5 as the specification words it fails.  On a machine whose mount point
    stays busy the release step of [InjectFile] fails in both backends, and
    [InjectFile] returns nil all the same: the mount helper and the copy
    succeed, the unmount (the detach) that follows the copy returns
    [EBUSY], and the caller sees no error. *)
Lemma InjectFile_drops_release_error :
  ((ref.Unmount stuck "/run/inject/c1/rootfs" 0
      (ref.FsInjectFile stuck example_file "c1" "etc/hosts" "/run/inject" 420 0 0
         (ref.MountContainerToSharedDir stuck
            "c1" "/var/lib/hyper/overlay" "/run/inject" "" false fresh).2).2).1
   = Some EBUSY
   ∧ (OverlayFsStorage_InjectFile (collab := RefCollaborators stuck)
        example_overlay example_file "c1" "etc/hosts" "/run/inject" 420 0 0 fresh).1
     = None)
  ∧ ((ref.PutImage stuck "/run/inject" "c1"
        (ref.FsInjectFile stuck example_file "c1" "etc/hosts" "/run/inject" 420 0 0
           (ref.GetImage stuck "/var/lib/hyper/rawblock/blocks" "/run/inject" "c1"
              "xfs" "" 0 0 pulled).2).2).1
     = Some EBUSY
     ∧ (RawBlockStorage_InjectFile (collab := RefCollaborators stuck)
          example_rawblock example_file "c1" "etc/hosts" "/run/inject" 420 0 0 pulled).1
       = None).
Proof. vm_compute. repeat split; reflexivity. Qed.

Lemma collaborator_failures_returned_witness :
  (OverlayFsStorage_InjectFile (collab := RefCollaborators broken)
     example_overlay example_file "c1" "etc/hosts" "/run/inject" 420 0 0 fresh).1
  = Some (fmt_Errorf "error creating overlay mount to /run/inject/c1/rootfs")
  ∧ (OverlayFsStorage_InjectFile (collab := RefCollaborators broken)
       example_overlay example_file "c2" "etc/hosts" "/run/inject" 420 0 0 fresh).1
    = Some (os_PathError "open" "/run/inject/c2/rootfs/etc/hosts" EACCES)
  ∧ (RawBlockStorage_InjectFile (collab := RefCollaborators broken)
       example_rawblock example_file "c2" "etc/hosts" "/run/inject" 420 0 0 fresh).1
    = Some (os_PathError "stat" "/var/lib/hyper/rawblock/blocks/c2" ENOENT)
  ∧ (RawBlockStorage_CreateVolume (collab := RefCollaborators broken)
       example_rawblock "p1" example_volume fresh).1
    = (Some (os_PathError "create" "/var/lib/hyper/rawblock/volumes/p1-data" EACCES),
       example_volume).
Proof.
  pose proof (collaborator_failures_returned (collab := RefCollaborators broken) fresh)
    as (_ & _ & Hinject & _ & _ & Hblock & Hcreate).
  split; [| split; [| split]].
  - apply (Hinject example_overlay example_file "c1" "etc/hosts" "/run/inject" 420 0 0).
    reflexivity.
  - rewrite (proj2 (Hinject example_overlay example_file "c2" "etc/hosts" "/run/inject"
                      420 0 0) eq_refl).
    reflexivity.
  - apply (Hblock example_rawblock example_file "c2" "etc/hosts" "/run/inject" 420 0 0).
    reflexivity.
  - apply (Hcreate example_rawblock "p1" example_volume). reflexivity.
Defined.

(** C4 as the specification words it fails.  On a machine whose mount point
    stays busy, with nothing mounted before the call, [InjectFile] returns
    nil in both backends and the mount it made is still there. *)
Lemma InjectFile_leaves_mount_when_release_fails :
  (mount_count "/run/inject/c1/rootfs" fresh = 0%nat
   ∧ (OverlayFsStorage_InjectFile (collab := RefCollaborators stuck)
        example_overlay example_file "c1" "etc/hosts" "/run/inject" 420 0 0 fresh).1
     = None
   ∧ mount_count "/run/inject/c1/rootfs"
       (OverlayFsStorage_InjectFile (collab := RefCollaborators stuck)
          example_overlay example_file "c1" "etc/hosts" "/run/inject" 420 0 0 fresh).2
     = 1%nat)
  ∧ (attach_count "/run/inject" "c1" pulled = 0%nat
     ∧ (RawBlockStorage_InjectFile (collab := RefCollaborators stuck)
          example_rawblock example_file "c1" "etc/hosts" "/run/inject" 420 0 0 pulled).1
       = None
     ∧ attach_count "/run/inject" "c1"
         (RawBlockStorage_InjectFile (collab := RefCollaborators stuck)
            example_rawblock example_file "c1" "etc/hosts" "/run/inject" 420 0 0
            pulled).2
       = 1%nat).
Proof. vm_compute. repeat split; reflexivity. Qed.

Lemma InjectFile_mount_after_return_witness :
  mount_count "/run/inject/c1/rootfs"
    (OverlayFsStorage_InjectFile (collab := RefCollaborators calm)
       example_overlay example_file "c1" "etc/hosts" "/run/inject" 420 0 0 fresh).2
  = 0%nat
  ∧ mount_count "/run/inject/c1/rootfs"
      (OverlayFsStorage_InjectFile (collab := RefCollaborators stuck)
         example_overlay example_file "c1" "etc/hosts" "/run/inject" 420 0 0 fresh).2
    = 1%nat
  ∧ mount_count "/run/inject/c1/rootfs"
      (OverlayFsStorage_InjectFile (collab := RefCollaborators broken)
         example_overlay example_file "c1" "etc/hosts" "/run/inject" 420 0 0 fresh).2
    = 0%nat
  ∧ attach_count "/run/inject" "c1"
      (RawBlockStorage_InjectFile (collab := RefCollaborators calm)
         example_rawblock example_file "c1" "etc/hosts" "/run/inject" 420 0 0 pulled).2
    = 0%nat.
Proof.
  split; [| split; [| split]].
  - destruct (proj1 (InjectFile_mount_after_return (collab := RefCollaborators calm)
                (ref_mount_ok calm) (ref_mount_failed calm)
                (ref_unmount_released calm) (ref_unmount_refused calm)
                (ref_attach_ok calm) (ref_attach_failed calm)
                (ref_detach_released calm) (ref_detach_refused calm)
                (ref_copy_keeps_mounts calm) (ref_copy_keeps_attached calm)
                ref_log_keeps_mounts
                example_file "c1" "etc/hosts" "/run/inject" 420 0 0 fresh)
                example_overlay) as [_ Hmounted].
    destruct (Hmounted eq_refl) as (_ & Hreleased & _).
    apply Hreleased. reflexivity.
  - destruct (proj1 (InjectFile_mount_after_return (collab := RefCollaborators stuck)
                (ref_mount_ok stuck) (ref_mount_failed stuck)
                (ref_unmount_released stuck) (ref_unmount_refused stuck)
                (ref_attach_ok stuck) (ref_attach_failed stuck)
                (ref_detach_released stuck) (ref_detach_refused stuck)
                (ref_copy_keeps_mounts stuck) (ref_copy_keeps_attached stuck)
                ref_log_keeps_mounts
                example_file "c1" "etc/hosts" "/run/inject" 420 0 0 fresh)
                example_overlay) as [_ Hmounted].
    destruct (Hmounted eq_refl) as (_ & _ & Hrefused).
    apply Hrefused. discriminate.
  - destruct (proj1 (InjectFile_mount_after_return (collab := RefCollaborators broken)
                (ref_mount_ok broken) (ref_mount_failed broken)
                (ref_unmount_released broken) (ref_unmount_refused broken)
                (ref_attach_ok broken) (ref_attach_failed broken)
                (ref_detach_released broken) (ref_detach_refused broken)
                (ref_copy_keeps_mounts broken) (ref_copy_keeps_attached broken)
                ref_log_keeps_mounts
                example_file "c1" "etc/hosts" "/run/inject" 420 0 0 fresh)
                example_overlay) as [Hfailed _].
    apply Hfailed. discriminate.
  - destruct (proj2 (InjectFile_mount_after_return (collab := RefCollaborators calm)
                (ref_mount_ok calm) (ref_mount_failed calm)
                (ref_unmount_released calm) (ref_unmount_refused calm)
                (ref_attach_ok calm) (ref_attach_failed calm)
                (ref_detach_released calm) (ref_detach_refused calm)
                (ref_copy_keeps_mounts calm) (ref_copy_keeps_attached calm)
                ref_log_keeps_mounts
                example_file "c1" "etc/hosts" "/run/inject" 420 0 0 pulled)
                example_rawblock) as [_ Hgot].
    destruct (Hgot eq_refl) as (_ & Hreleased & _).
    apply Hreleased. reflexivity.
Defined.

(** C8 as the specification words it fails.  On a host where
    [<root>/volumes] is there already with mode 0755, two [Init] calls in a
    row succeed and the directory still has mode 0755, not 0700. *)
Lemma RawBlockStorage_Init_keeps_existing_mode :
  RawBlockStorage_Init (collab := RefCollaborators calm) example_rawblock configured
  = (None, configured)
  ∧ RawBlockStorage_Init (collab := RefCollaborators calm) example_rawblock
      (RawBlockStorage_Init (collab := RefCollaborators calm)
         example_rawblock configured).2
    = (None, configured)
  ∧ dir_perm "/var/lib/hyper/rawblock/volumes" configured = Some 493
  ∧ (493 : Z) ≠ octal [0; 7; 0; 0].
Proof. vm_compute. repeat split; (reflexivity || discriminate). Qed.

Lemma RawBlockStorage_Init_idempotent_witness :
  let first := RawBlockStorage_Init (collab := RefCollaborators calm)
                 example_rawblock fresh in
  first.1 = None
  ∧ dir_perm "/var/lib/hyper/rawblock/volumes" first.2 = Some 448
  ∧ RawBlockStorage_Init (collab := RefCollaborators calm) example_rawblock first.2
    = (None, first.2)
  ∧ (RawBlockStorage_Init (collab := RefCollaborators calm)
       example_rawblock configured).2 = configured.
Proof.
  intros first.
  destruct (proj2 (RawBlockStorage_Init_idempotent (collab := RefCollaborators calm)
                     (ref_mkdir_existing calm) (ref_mkdir_created calm)
                     example_rawblock fresh) first.2 eq_refl)
    as (Hthere & Hmode & _ & Hagain).
  destruct (proj2 (RawBlockStorage_Init_idempotent (collab := RefCollaborators calm)
                     (ref_mkdir_existing calm) (ref_mkdir_created calm)
                     example_rawblock configured)
              (RawBlockStorage_Init (collab := RefCollaborators calm)
                 example_rawblock configured).2 eq_refl)
    as (_ & _ & Hkept & _).
  split; [reflexivity |]. split; [| split].
  - apply Hmode. reflexivity.
  - exact Hagain.
  - apply Hkept. by exists 493.
Defined.

(** C9 as the specification words it fails.  On a machine whose mount point
    stays busy, [CleanupContainer] after a successful [PrepareContainer]
    returns [EBUSY] and the mount is still there.  And on a machine where
    nothing goes wrong, with the container prepared twice before, a
    prepare and a cleanup leave two mounts, and the second cleanup returns
    nil. *)
Lemma OverlayFsStorage_cleanup_can_leave_mount :
  ((OverlayFsStorage_PrepareContainer (collab := RefCollaborators stuck)
      example_overlay "c1" "/run/inject" false fresh).1.2 = None
   ∧ (OverlayFsStorage_CleanupContainer (collab := RefCollaborators stuck)
        example_overlay "c1" "/run/inject"
        (OverlayFsStorage_PrepareContainer (collab := RefCollaborators stuck)
           example_overlay "c1" "/run/inject" false fresh).2).1 = Some EBUSY
   ∧ mount_count "/run/inject/c1/rootfs"
       (OverlayFsStorage_CleanupContainer (collab := RefCollaborators stuck)
          example_overlay "c1" "/run/inject"
          (OverlayFsStorage_PrepareContainer (collab := RefCollaborators stuck)
             example_overlay "c1" "/run/inject" false fresh).2).2 = 1%nat)
  ∧ ((OverlayFsStorage_PrepareContainer (collab := RefCollaborators calm)
        example_overlay "c1" "/run/share" false prepared_twice).1.2 = None
     ∧ mount_count "/run/share/c1/rootfs"
         (OverlayFsStorage_CleanupContainer (collab := RefCollaborators calm)
            example_overlay "c1" "/run/share"
            (OverlayFsStorage_PrepareContainer (collab := RefCollaborators calm)
               example_overlay "c1" "/run/share" false prepared_twice).2).2 = 2%nat
     ∧ (OverlayFsStorage_CleanupContainer (collab := RefCollaborators calm)
          example_overlay "c1" "/run/share"
          (OverlayFsStorage_CleanupContainer (collab := RefCollaborators calm)
             example_overlay "c1" "/run/share"
             (OverlayFsStorage_PrepareContainer (collab := RefCollaborators calm)
                example_overlay "c1" "/run/share" false prepared_twice).2).2).1
       = None).
Proof. vm_compute. repeat split; reflexivity. Qed.

Lemma OverlayFsStorage_prepare_cleanup_witness :
  let prepared := OverlayFsStorage_PrepareContainer (collab := RefCollaborators calm)
                    example_overlay "c1" "/run/share" false fresh in
  let cleaned := OverlayFsStorage_CleanupContainer (collab := RefCollaborators calm)
                   example_overlay "c1" "/run/share" prepared.2 in
  mount_count "/run/share/c1/rootfs" prepared.2 = 1%nat
  ∧ mount_count "/run/share/c1/rootfs" cleaned.2 = 0%nat
  ∧ ∃ e,
      OverlayFsStorage_CleanupContainer (collab := RefCollaborators calm)
        example_overlay "c1" "/run/share" cleaned.2 = (Some e, cleaned.2).
Proof.
  intros prepared cleaned.
  destruct (OverlayFsStorage_prepare_cleanup (collab := RefCollaborators calm)
              (ref_mount_ok calm) (ref_unmount_released calm)
              (ref_unmount_refused calm) (ref_unmount_not_mounted calm)
              example_overlay "c1" "/run/share" false fresh prepared.2
              {| runv.Name := "/c1"; runv.Source := "/c1"; runv.Fstype := "dir";
                 runv.Format := "vfs"; runv.ReadOnly := false |}
              eq_refl)
    as (_ & Hone & _ & Hclean).
  destruct (Hclean cleaned.2 eq_refl) as (Hback & Hsecond).
  split; [exact Hone |]. split; [exact Hback |].
  destruct (Hsecond eq_refl) as (e & Hagain & _).
  exists e. exact Hagain.
Defined.

(** * Further properties *)

(** ** More on paths *)

Lemma rooted_app_nonempty (y z : string) :
  y ≠ "" → filepath.rooted (y ++ z) = filepath.rooted y.
Proof. destruct y; [done | reflexivity]. Qed.

Lemma is_name_nonempty (x : string) : filepath.is_name x → x ≠ "".
Proof. intros (_ & Hne & _). exact Hne. Qed.

(** Appending a name to any path: the cleaned result is a prefix that
    depends on the path alone, followed by the name. *)
Lemma Clean_push (y x : string) :
  filepath.is_name x →
  let r := filepath.rooted (y ++ "/" ++ x) in
  let l := rev (fold_left (filepath.clean_element r) (filepath.elements y) []) in
  filepath.Clean (y ++ "/" ++ x)
  = (if r then "/" else "")
    ++ match l with [] => "" | _ => filepath.concat_with "/" l ++ "/" end
    ++ x.
Proof.
  intros Hx r l. unfold filepath.Clean. fold r.
  rewrite elements_app_separator, fold_left_app.
  destruct Hx as [Hx1 Hx]. rewrite Hx1. simpl fold_left.
  rewrite clean_element_name by (split; assumption).
  simpl rev. fold l.
  destruct r, l as [| a l']; try reflexivity.
  - rewrite concat_with_snoc by discriminate.
    change ("/" ++ (filepath.concat_with "/" (a :: l') ++ "/" ++ x)
            = "/" ++ ((filepath.concat_with "/" (a :: l') ++ "/") ++ x)).
    by rewrite string_app_assoc.
  - change (filepath.concat_with "/" ((a :: l') ++ [x])%list
            = (filepath.concat_with "/" (a :: l') ++ "/") ++ x).
    rewrite concat_with_snoc by discriminate. by rewrite string_app_assoc.
Qed.

(** A name appended to a non-empty path whose last element survives
    cleaning: the cleaned path, a separator, the name. *)
Lemma Clean_child (y x : string) :
  y ≠ "" →
  fold_left (filepath.clean_element (filepath.rooted y)) (filepath.elements y) [] ≠ [] →
  filepath.is_name x →
  filepath.Clean (y ++ "/" ++ x) = filepath.Clean y ++ "/" ++ x.
Proof.
  intros Hy Hstack Hx. rewrite (Clean_push y x Hx). cbv zeta.
  rewrite (rooted_app_nonempty y _ Hy). unfold filepath.Clean.
  set (out := fold_left _ _ _) in *.
  assert (rev out ≠ []) as Hrev.
  { intros Hnil. apply Hstack. apply (f_equal (@rev string)) in Hnil.
    rewrite rev_involutive in Hnil. exact Hnil. }
  destruct (rev out) as [| a l'] eqn:Hl; [done |].
  destruct (filepath.rooted y).
  - change ("/" ++ ((filepath.concat_with "/" (a :: l') ++ "/") ++ x)
            = ("/" ++ filepath.concat_with "/" (a :: l')) ++ "/" ++ x).
    by rewrite !string_app_assoc.
  - change ((filepath.concat_with "/" (a :: l') ++ "/") ++ x
            = filepath.concat_with "/" (a :: l') ++ "/" ++ x).
    by rewrite !string_app_assoc.
Qed.

Lemma stack_after_name (r : bool) (y d : string) :
  filepath.is_name d →
  fold_left (filepath.clean_element r) (filepath.elements (y ++ "/" ++ d)) [] ≠ [].
Proof.
  intros Hd. rewrite elements_app_separator, fold_left_app.
  destruct Hd as [Hd1 Hd]. rewrite Hd1. simpl.
  rewrite clean_element_name by (split; assumption). discriminate.
Qed.

(** The path of a name in a named directory under any root is the path of
    the directory, a separator, and the name. *)
Lemma Join_child (root d x : string) :
  filepath.is_name d → filepath.is_name x →
  filepath.Join [root; d; x] = filepath.Join [root; d] ++ "/" ++ x.
Proof.
  intros Hd Hx. pose proof (is_name_nonempty d Hd) as Hdne.
  unfold filepath.Join. destruct (decide (root = "")) as [-> | Hroot].
  - rewrite !decide_False by assumption.
    change (filepath.concat_with "/" [d; x]) with (d ++ "/" ++ x).
    change (filepath.concat_with "/" [d]) with d.
    apply Clean_child; [assumption | | assumption].
    destruct Hd as [Hd1 Hd]. rewrite Hd1. simpl.
    rewrite clean_element_name by (split; assumption). discriminate.
  - change (filepath.concat_with "/" [root; d; x]) with (root ++ "/" ++ (d ++ "/" ++ x)).
    change (filepath.concat_with "/" [root; d]) with (root ++ "/" ++ d).
    rewrite <- (string_app_assoc root "/" (d ++ "/" ++ x)).
    rewrite <- (string_app_assoc (root ++ "/") d ("/" ++ x)).
    rewrite (string_app_assoc root "/" d).
    apply Clean_child; [| apply stack_after_name; assumption | assumption].
    destruct root; [done | discriminate].
Qed.

Lemma Join_child_inj (root d x1 x2 : string) :
  filepath.is_name d → filepath.is_name x1 → filepath.is_name x2 →
  filepath.Join [root; d; x1] = filepath.Join [root; d; x2] → x1 = x2.
Proof.
  intros Hd H1 H2. rewrite !Join_child by assumption.
  intros Heq. apply (inj (String.app _)) in Heq. by inversion Heq.
Qed.

(** Cleaning never gives the empty path. *)
Lemma clean_element_keeps_nonempty (r : bool) (out : list string) (e : string) :
  Forall (λ x, x ≠ "") out → Forall (λ x, x ≠ "") (filepath.clean_element r out e).
Proof.
  intros Hout. unfold filepath.clean_element.
  destruct (decide (e = "" ∨ e = ".")) as [_ | Hne]; [exact Hout |].
  assert (e ≠ "") as He by (intros ->; apply Hne; by left).
  destruct (decide (e = "..")).
  - destruct out as [| last before].
    + destruct r; [constructor | by repeat constructor].
    + destruct (decide (last = "..")); [by constructor |].
      by inversion Hout.
  - by constructor.
Qed.

Lemma fold_clean_keeps_nonempty (r : bool) (es out : list string) :
  Forall (λ x, x ≠ "") out →
  Forall (λ x, x ≠ "") (fold_left (filepath.clean_element r) es out).
Proof.
  revert out. induction es as [| e es IH]; intros out Hout; simpl; [exact Hout |].
  apply IH, clean_element_keeps_nonempty, Hout.
Qed.

Lemma concat_with_nonempty (sep a : string) (l : list string) :
  a ≠ "" → filepath.concat_with sep (a :: l) ≠ "".
Proof.
  intros Ha. destruct a as [| c a]; [done |].
  destruct l; simpl; discriminate.
Qed.

Lemma Clean_not_empty (path : string) : filepath.Clean path ≠ "".
Proof.
  unfold filepath.Clean. destruct (filepath.rooted path); [discriminate |].
  pose proof (fold_clean_keeps_nonempty false (filepath.elements path) []
                (Forall_nil_2 _)) as Hall.
  destruct (rev _) as [| a l] eqn:Hrev; [discriminate |].
  apply concat_with_nonempty.
  rewrite Forall_forall in Hall. apply Hall.
  apply list_elem_of_In, in_rev. rewrite Hrev. by left.
Qed.

Lemma Join_two_not_empty (root name : string) :
  name ≠ "" → filepath.Join [root; name] ≠ "".
Proof.
  intros Hname. unfold filepath.Join.
  destruct (decide (root = "")); [| apply Clean_not_empty].
  rewrite decide_False by assumption. apply Clean_not_empty.
Qed.

(** A name joined under a clean absolute directory, and the result is again
    a clean absolute directory. *)
Lemma Join_two_under_clean_dir (root x : string) :
  filepath.is_clean_dir root → filepath.is_name x →
  filepath.Join [root; x] = root ++ "/" ++ x.
Proof.
  intros (Hrooted & Hclean & Hnotroot) Hx.
  assert (root ≠ "") as Hne by (intros ->; discriminate).
  unfold filepath.Join. rewrite decide_False by assumption.
  change (filepath.concat_with "/" [root; x]) with (root ++ "/" ++ x).
  rewrite Clean_child; [by rewrite Hclean | assumption | | assumption].
  intros Hnil. apply Hnotroot. rewrite <- Hclean. unfold filepath.Clean.
  rewrite Hrooted in *. rewrite Hnil. reflexivity.
Qed.

Lemma is_clean_dir_child (root x : string) :
  filepath.is_clean_dir root → filepath.is_name x →
  filepath.is_clean_dir (root ++ "/" ++ x).
Proof.
  intros Hroot Hx. pose proof (Join_two_under_clean_dir root x Hroot Hx) as Hjoin.
  destruct Hroot as (Hrooted & Hclean & Hnotroot).
  assert (root ≠ "") as Hne by (intros ->; discriminate).
  split; [| split].
  - rewrite rooted_app_nonempty by assumption. exact Hrooted.
  - revert Hjoin. unfold filepath.Join. rewrite decide_False by assumption.
    trivial.
  - destruct root as [| c [| c' root']]; [done | discriminate | discriminate].
Qed.

Lemma Clean_name (x : string) : filepath.is_name x → filepath.Clean x = x.
Proof.
  intros (Hx1 & Hne & Hdot & Hdotdot). unfold filepath.Clean.
  assert (filepath.rooted x = false) as Hrel.
  { destruct x as [| c rest]; [reflexivity |]. simpl in *.
    destruct (Ascii.eqb c "/"); [| reflexivity].
    inversion Hx1. }
  rewrite Hrel, Hx1. simpl.
  rewrite clean_element_name by (repeat split; assumption). reflexivity.
Qed.

Lemma Join_two_inj (root x1 x2 : string) :
  filepath.is_name x1 → filepath.is_name x2 →
  filepath.Join [root; x1] = filepath.Join [root; x2] → x1 = x2.
Proof.
  intros H1 H2. unfold filepath.Join.
  destruct (decide (root = "")) as [-> | Hroot].
  - rewrite !decide_False by (apply is_name_nonempty; assumption).
    change (filepath.concat_with "/" [x1]) with x1.
    change (filepath.concat_with "/" [x2]) with x2.
    by rewrite !Clean_name.
  - change (filepath.concat_with "/" [root; x1]) with (root ++ "/" ++ x1).
    change (filepath.concat_with "/" [root; x2]) with (root ++ "/" ++ x2).
    rewrite (Clean_push root x1 H1), (Clean_push root x2 H2). cbv zeta.
    rewrite !(rooted_app_nonempty root) by assumption.
    intros Heq. apply (inj (String.app _)) in Heq.
    apply (inj (String.app _)) in Heq. exact Heq.
Qed.

Lemma is_name_overlay : filepath.is_name "overlay".
Proof. split; [reflexivity | repeat split; discriminate]. Qed.

Lemma is_name_rawblock : filepath.is_name "rawblock".
Proof. split; [reflexivity | repeat split; discriminate]. Qed.

(** ** The backends the factories build *)

Section Factories.

Context {Host : Type} {collab : Collaborators Host} {DaemonDB : Type}.

(** What [StorageFactory] can return with a nil error. *)
Lemma StorageFactory_backend (sysinfo : dockertypes.Info) (db : DaemonDB) (st : Storage) :
  StorageFactory sysinfo db = (Some st, None) →
  st = Storage_overlay
         {| overlay_rootPath := filepath.Join [utils_HYPER_ROOT; "overlay"] |}
  ∨ st = Storage_rawblock
           {| rawblock_rootPath := filepath.Join [utils_HYPER_ROOT; "rawblock"] |}.
Proof.
  unfold StorageFactory.
  destruct (decide (dockertypes.Driver sysinfo = "overlay")) as [-> | Ho].
  { pose proof (StorageDrivers_overlay (DaemonDB := DaemonDB)) as Hlook.
    unfold factory in *. rewrite Hlook. intros Hres. inversion Hres. by left. }
  destruct (decide (dockertypes.Driver sysinfo = "rawblock")) as [-> | Hr].
  { pose proof (StorageDrivers_rawblock (DaemonDB := DaemonDB)) as Hlook.
    unfold factory in *. rewrite Hlook. intros Hres. inversion Hres. by right. }
  pose proof (StorageDrivers_other (DaemonDB := DaemonDB) _ Ho Hr) as Hnone.
  destruct (StorageDrivers !! dockertypes.Driver sysinfo) as [f |] eqn:Hlook.
  - unfold factory in *. congruence.
  - discriminate.
Qed.

(** X1. The root of a selected backend.  Whatever backend [StorageFactory]
    returns, its [RootPath()] is the data root joined with its [Type()],
    and is never the empty string, whatever the data root is.  When the
    data root is a clean absolute directory other than ["/"], the root
    path is the string [<data root>/<type>]; when the data root is ["/"],
    it is [/<type>]; either way it is a clean absolute directory other
    than ["/"]. *)
Theorem StorageFactory_RootPath
    (sysinfo : dockertypes.Info) (db : DaemonDB) (st : Storage) :
  StorageFactory sysinfo db = (Some st, None) →
  Storage_RootPath st = filepath.Join [utils_HYPER_ROOT; Storage_Type st]
  ∧ Storage_RootPath st ≠ ""
  ∧ (filepath.is_clean_dir utils_HYPER_ROOT →
     Storage_RootPath st = utils_HYPER_ROOT ++ "/" ++ Storage_Type st
     ∧ filepath.is_clean_dir (Storage_RootPath st))
  ∧ (utils_HYPER_ROOT = "/" →
     Storage_RootPath st = "/" ++ Storage_Type st
     ∧ filepath.is_clean_dir (Storage_RootPath st)).
Proof.
  intros Hsel. destruct (StorageFactory_backend _ _ _ Hsel) as [-> | ->]; simpl.
  - split; [reflexivity |]. split; [by apply Join_two_not_empty |].
    unfold OverlayFsStorage_RootPath, OverlayFsStorage_Type. simpl. split.
    + intros Hroot.
      rewrite (Join_two_under_clean_dir _ _ Hroot is_name_overlay).
      split; [reflexivity |].
      apply is_clean_dir_child; [assumption | apply is_name_overlay].
    + intros ->. split; [reflexivity |].
      split; [reflexivity | split; [reflexivity | discriminate]].
  - split; [reflexivity |]. split; [by apply Join_two_not_empty |].
    unfold RawBlockStorage_RootPath, RawBlockStorage_Type. simpl. split.
    + intros Hroot.
      rewrite (Join_two_under_clean_dir _ _ Hroot is_name_rawblock).
      split; [reflexivity |].
      apply is_clean_dir_child; [assumption | apply is_name_rawblock].
    + intros ->. split; [reflexivity |].
      split; [reflexivity | split; [reflexivity | discriminate]].
Qed.

(** X2. Backends of different types never share their storage root:
    whatever the data root is, two backends that [StorageFactory] returns
    with different [Type()] have different [RootPath()]. *)
Theorem StorageFactory_roots_apart
    (sysinfo1 sysinfo2 : dockertypes.Info) (db : DaemonDB) (st1 st2 : Storage) :
  StorageFactory sysinfo1 db = (Some st1, None) →
  StorageFactory sysinfo2 db = (Some st2, None) →
  Storage_Type st1 ≠ Storage_Type st2 →
  Storage_RootPath st1 ≠ Storage_RootPath st2.
Proof.
  intros H1 H2.
  destruct (StorageFactory_backend _ _ _ H1) as [-> | ->],
           (StorageFactory_backend _ _ _ H2) as [-> | ->]; simpl;
    unfold OverlayFsStorage_RootPath, RawBlockStorage_RootPath; simpl;
    intros Htypes Heq; try (by apply Htypes).
  - apply Join_two_inj in Heq; [discriminate | apply is_name_overlay | apply is_name_rawblock].
  - apply Join_two_inj in Heq; [discriminate | apply is_name_rawblock | apply is_name_overlay].
Qed.

(** X3. The raw-block backend as the daemon gets it.  Let the data root be
    a clean absolute directory, ["/"] included, and let [base] be the data
    root, or the empty string when the data root is ["/"].  The backend
    selected for the driver [rawblock] describes the container [id], a
    single name, by the device [<base>/rawblock/blocks/<id>], through the
    interface and without touching the host; and a volume it creates for a
    single-name [podId-Name] comes back with [Source]
    [<base>/rawblock/volumes/<podId>-<Name>]. *)
Theorem rawblock_backend_paths
    (sysinfo : dockertypes.Info) (db : DaemonDB) (st : Storage) (base : string) :
  dockertypes.Driver sysinfo = "rawblock" →
  StorageFactory sysinfo db = (Some st, None) →
  (filepath.is_clean_dir utils_HYPER_ROOT ∧ base = utils_HYPER_ROOT)
  ∨ (utils_HYPER_ROOT = "/" ∧ base = "") →
  (∀ id dir readonly h,
     filepath.is_name id →
     Storage_PrepareContainer st id dir readonly h
     = ((Some {| runv.Name := base ++ "/rawblock/blocks/" ++ id;
                 runv.Source := base ++ "/rawblock/blocks/" ++ id;
                 runv.Fstype := "xfs";
                 runv.Format := "raw";
                 runv.ReadOnly := readonly |}, None), h))
  ∧ (∀ podId spec spec' h h',
     filepath.is_name (podId ++ "-" ++ apitypes.Name spec) →
     Storage_CreateVolume st podId spec h = ((None, spec'), h') →
     apitypes.Source spec'
     = base ++ "/rawblock/volumes/" ++ podId ++ "-" ++ apitypes.Name spec).
Proof.
  intros Hdriver Hsel Hroot.
  assert (st = Storage_rawblock
                 {| rawblock_rootPath := filepath.Join [utils_HYPER_ROOT; "rawblock"] |})
    as ->.
  { destruct (StorageFactory_backend _ _ _ Hsel) as [-> | ->]; [| reflexivity].
    revert Hsel. unfold StorageFactory. rewrite Hdriver.
    pose proof (StorageDrivers_rawblock (DaemonDB := DaemonDB)) as Hlook.
    unfold factory in *. rewrite Hlook. intros Hres. inversion Hres. }
  assert (filepath.Join [utils_HYPER_ROOT; "rawblock"] = base ++ "/rawblock"
          ∧ filepath.is_clean_dir (base ++ "/rawblock")) as [Hjoin Hchild].
  { destruct Hroot as [[Hclean ->] | [Hslash ->]].
    - split; [apply (Join_two_under_clean_dir _ _ Hclean is_name_rawblock) |].
      apply (is_clean_dir_child _ _ Hclean is_name_rawblock).
    - rewrite Hslash. split; [reflexivity |].
      split; [reflexivity | split; [reflexivity | discriminate]]. }
  split.
  - intros id dir readonly h Hid. simpl.
    unfold RawBlockStorage_PrepareContainer, RawBlockStorage_RootPath. simpl.
    rewrite Hjoin.
    rewrite (Join_under_clean_dir _ "blocks" id Hchild is_name_blocks Hid).
    rewrite !string_app_assoc. reflexivity.
  - intros podId spec spec' h h' Hname. simpl.
    unfold RawBlockStorage_CreateVolume, RawBlockStorage_RootPath. run_monad.
    rewrite Hjoin.
    destruct (rawblock_CreateBlock _ _ _ _ h) as [[e|] h1];
      simpl; intros Hres; inversion Hres; subst; simpl.
    rewrite (Join_under_clean_dir _ "volumes" _ Hchild is_name_volumes Hname).
    rewrite !string_app_assoc. reflexivity.
Qed.

End Factories.

(** ** Names and images *)

Section Naming.

Context {Host : Type} {collab : Collaborators Host}.

(** X4. A descriptor's [Name] identifies the container.  Two successful
    overlay [PrepareContainer] calls for different container ids return
    descriptors with different [Name]s, whatever the shared directories
    and flags; the same holds for the raw-block backend when the ids are
    single names. *)
Theorem PrepareContainer_Name_identifies_container
    (id1 id2 dir1 dir2 : string) (ro1 ro2 : bool) (h1 h2 h1' h2' : Host)
    (v1 v2 : runv.VolumeDescription) :
  id1 ≠ id2 →
  (∀ o,
     OverlayFsStorage_PrepareContainer o id1 dir1 ro1 h1 = ((Some v1, None), h1') →
     OverlayFsStorage_PrepareContainer o id2 dir2 ro2 h2 = ((Some v2, None), h2') →
     runv.Name v1 ≠ runv.Name v2)
  ∧ (∀ s,
     filepath.is_name id1 → filepath.is_name id2 →
     RawBlockStorage_PrepareContainer s id1 dir1 ro1 h1 = ((Some v1, None), h1') →
     RawBlockStorage_PrepareContainer s id2 dir2 ro2 h2 = ((Some v2, None), h2') →
     runv.Name v1 ≠ runv.Name v2).
Proof.
  intros Hids. split.
  - intros o. unfold OverlayFsStorage_PrepareContainer. run_monad.
    destruct (overlay_MountContainerToSharedDir _ _ _ _ _ h1) as [[mp1 [e1|]] k1];
      simpl; [destruct (glog_Error _ k1); intros Hres; inversion Hres |].
    destruct (overlay_MountContainerToSharedDir _ _ _ _ _ h2) as [[mp2 [e2|]] k2];
      simpl; [destruct (glog_Error _ k2); intros _ Hres; inversion Hres |].
    intros Hv1 Hv2. inversion Hv1; inversion Hv2; subst. simpl.
    intros Heq. apply Hids. by inversion Heq.
  - intros s Hid1 Hid2. unfold RawBlockStorage_PrepareContainer. run_monad.
    intros Hv1 Hv2. inversion Hv1; inversion Hv2; subst. simpl.
    intros Heq. apply Hids.
    apply (Join_child_inj _ "blocks") in Heq;
      [exact Heq | apply is_name_blocks | assumption | assumption].
Qed.

(** X5. Raw-block volume images are named [podId-Name], and the dash does
    not separate: the volume [c] of pod [a-b] and the volume [b-c] of pod
    [a] are one image.  [CreateVolume] makes the same call for both, so it
    returns the same error and leaves the same host, and on success both
    specs get the same [Source]. *)
Theorem RawBlockStorage_CreateVolume_names_collide
    (s : RawBlockStorage) (a b c : string) (spec1 spec2 : apitypes.UserVolume)
    (h : Host) :
  apitypes.Name spec1 = c →
  apitypes.Name spec2 = b ++ "-" ++ c →
  let made1 := RawBlockStorage_CreateVolume s (a ++ "-" ++ b) spec1 h in
  let made2 := RawBlockStorage_CreateVolume s a spec2 h in
  made1.1.1 = made2.1.1
  ∧ made1.2 = made2.2
  ∧ (made1.1.1 = None →
     apitypes.Source made1.1.2 = apitypes.Source made2.1.2).
Proof.
  intros Hn1 Hn2. unfold RawBlockStorage_CreateVolume. run_monad.
  rewrite Hn1, Hn2.
  replace ((a ++ "-" ++ b) ++ "-" ++ c) with (a ++ "-" ++ b ++ "-" ++ c)
    by (by rewrite !string_app_assoc).
  destruct (rawblock_CreateBlock _ _ _ _ h) as [[e|] h1]; simpl.
  - split; [reflexivity |]. split; [reflexivity |]. discriminate.
  - split; [reflexivity |]. split; [reflexivity |]. reflexivity.
Qed.

(** X6. Within one pod the images are apart.  Two successful raw-block
    [CreateVolume] calls for the same pod and different volume names fill
    in different [Source]s, when each [podId-Name] is a single name. *)
Theorem RawBlockStorage_CreateVolume_Source_identifies_volume
    (s : RawBlockStorage) (podId : string)
    (spec1 spec2 spec1' spec2' : apitypes.UserVolume) (h1 h2 h1' h2' : Host) :
  apitypes.Name spec1 ≠ apitypes.Name spec2 →
  filepath.is_name (podId ++ "-" ++ apitypes.Name spec1) →
  filepath.is_name (podId ++ "-" ++ apitypes.Name spec2) →
  RawBlockStorage_CreateVolume s podId spec1 h1 = ((None, spec1'), h1') →
  RawBlockStorage_CreateVolume s podId spec2 h2 = ((None, spec2'), h2') →
  apitypes.Source spec1' ≠ apitypes.Source spec2'.
Proof.
  intros Hnames Hname1 Hname2. unfold RawBlockStorage_CreateVolume. run_monad.
  destruct (rawblock_CreateBlock _ _ _ _ h1) as [[e1|] k1];
    simpl; intros Hres1; inversion Hres1; subst.
  destruct (rawblock_CreateBlock _ _ _ _ h2) as [[e2|] k2];
    simpl; intros Hres2; inversion Hres2; subst.
  simpl. intros Heq. apply Hnames.
  apply (Join_child_inj _ "volumes") in Heq;
    [| apply is_name_volumes | assumption | assumption].
  apply (inj (String.app _)) in Heq. apply (inj (String.app _)) in Heq. exact Heq.
Qed.

End Naming.

(** ** The mount table *)

Section MountTable.

Context {Host : Type} {collab : Collaborators Host} {view : HostView Host}.

(** The contract of the union-mount helper and of the kernel's umount, now
    with what they leave alone: each changes the count of its own mount
    point only. *)
Hypothesis law_mount_ok : ∀ id root dir label ro h mp h',
  overlay_MountContainerToSharedDir id root dir label ro h = ((mp, None), h') →
  mount_count (filepath.Join [dir; id; "rootfs"]) h'
  = S (mount_count (filepath.Join [dir; id; "rootfs"]) h).

Hypothesis law_mount_ok_elsewhere : ∀ id root dir label ro h mp h' q,
  overlay_MountContainerToSharedDir id root dir label ro h = ((mp, None), h') →
  q ≠ filepath.Join [dir; id; "rootfs"] →
  mount_count q h' = mount_count q h.

Hypothesis law_mount_failed : ∀ id root dir label ro h mp e h' q,
  overlay_MountContainerToSharedDir id root dir label ro h = ((mp, Some e), h') →
  mount_count q h' = mount_count q h.

Hypothesis law_unmount_mounted : ∀ p h,
  (0 < mount_count p h)%nat →
  ∃ h', syscall_Unmount p 0 h = (None, h')
        ∧ mount_count p h' = pred (mount_count p h).

Hypothesis law_unmount_not_mounted : ∀ p h,
  mount_count p h = 0%nat →
  ∃ e, syscall_Unmount p 0 h = (Some e, h).

Hypothesis law_unmount_elsewhere : ∀ p h q,
  q ≠ p → mount_count q (syscall_Unmount p 0 h).2 = mount_count q h.

Hypothesis law_copy_keeps_mounts : ∀ src id target base perm uid gid h q,
  mount_count q (storage_FsInjectFile src id target base perm uid gid h).2
  = mount_count q h.

Hypothesis law_log_keeps_mounts : ∀ msg h q,
  mount_count q (glog_Error msg h).2 = mount_count q h.

(** X8. What overlay [PrepareContainer] does to the mount table.  It
    returns a descriptor exactly when it returns no error.  On success
    there is one more mount on [<sharedDir>/<id>/rootfs] than before, left
    in place for the guest, and every other mount point is as it was; on
    failure every mount point is as it was. *)
Theorem OverlayFsStorage_PrepareContainer_mounts
    (o : OverlayFsStorage) (id dir : string) (readonly : bool) (h : Host)
    (q : string) :
  let rootfs := filepath.Join [dir; id; "rootfs"] in
  let prepared := OverlayFsStorage_PrepareContainer o id dir readonly h in
  (is_Some prepared.1.1 ↔ prepared.1.2 = None)
  ∧ (prepared.1.2 = None →
     mount_count q prepared.2
     = if decide (q = rootfs) then S (mount_count q h) else mount_count q h)
  ∧ (prepared.1.2 ≠ None → mount_count q prepared.2 = mount_count q h).
Proof.
  intros rootfs. unfold OverlayFsStorage_PrepareContainer. run_monad.
  destruct (overlay_MountContainerToSharedDir _ _ _ _ _ h)
    as [[mp [e|]] h1] eqn:Hmount; simpl.
  - pose proof (law_log_keeps_mounts
                  ("got error when mount container to share dir " ++ Error e) h1 q)
      as Hlog.
    destruct (glog_Error _ h1) as [u h2]. simpl in *.
    split; [split; [intros [v Hv]; discriminate | discriminate] |].
    split; [discriminate |].
    intros _. rewrite Hlog. eapply law_mount_failed, Hmount.
  - split; [split; [reflexivity | eauto] |].
    split; [| intros Hne; by destruct Hne].
    intros _. destruct (decide (q = rootfs)) as [-> | Hq].
    + eapply law_mount_ok, Hmount.
    + eapply law_mount_ok_elsewhere; [exact Hmount | exact Hq].
Qed.



(** The two ways through overlay [InjectFile]. *)
Lemma OverlayFsStorage_InjectFile_paths
    (o : OverlayFsStorage) (src : io_Reader) (id target base : string)
    (perm uid gid : Z) (h : Host) :
  let rootfs := filepath.Join [base; id; "rootfs"] in
  (∃ mp e h1,
     overlay_MountContainerToSharedDir id (OverlayFsStorage_RootPath o) base "" false h
     = ((mp, Some e), h1)
     ∧ OverlayFsStorage_InjectFile o src id target base perm uid gid h
       = (Some e, (glog_Error ("got error when mount container to share dir "
                               ++ Error e) h1).2))
  ∨ (∃ mp h1 r h2 r' h3,
     overlay_MountContainerToSharedDir id (OverlayFsStorage_RootPath o) base "" false h
     = ((mp, None), h1)
     ∧ storage_FsInjectFile src id target base perm uid gid h1 = (r, h2)
     ∧ syscall_Unmount rootfs 0 h2 = (r', h3)
     ∧ OverlayFsStorage_InjectFile o src id target base perm uid gid h = (r, h3)).
Proof.
  intros rootfs. unfold OverlayFsStorage_InjectFile. run_monad.
  destruct (overlay_MountContainerToSharedDir _ _ _ _ _ h) as [[mp [e|]] h1]; simpl.
  - left. exists mp, e, h1. split; [reflexivity |].
    by destruct (glog_Error _ h1).
  - right. fold rootfs.
    destruct (storage_FsInjectFile _ _ _ _ _ _ _ h1) as [r h2] eqn:Hcopy.
    destruct (syscall_Unmount rootfs 0 h2) as [r' h3] eqn:Hun.
    exists mp, h1, r, h2, r', h3. by rewrite Hcopy.
Qed.

Lemma OverlayFsStorage_InjectFile_mount_count
    (o : OverlayFsStorage) (src : io_Reader) (id target base : string)
    (perm uid gid : Z) (h : Host) (q : string) :
  mount_count q (OverlayFsStorage_InjectFile o src id target base perm uid gid h).2
  = mount_count q h.
Proof.
  destruct (OverlayFsStorage_InjectFile_paths o src id target base perm uid gid h)
    as [(mp & e & h1 & Hmount & ->) | (mp & h1 & r & h2 & r' & h3 & Hmount & Hcopy & Hun & ->)];
    simpl.
  - rewrite law_log_keeps_mounts. eapply law_mount_failed, Hmount.
  - pose proof (law_copy_keeps_mounts src id target base perm uid gid h1) as Hkeep.
    rewrite Hcopy in Hkeep. simpl in Hkeep.
    destruct (decide (q = filepath.Join [base; id; "rootfs"])) as [-> | Hq].
    + apply law_mount_ok in Hmount.
      destruct (law_unmount_mounted (filepath.Join [base; id; "rootfs"]) h2)
        as (h' & Hun' & Hcount); [rewrite Hkeep; lia |].
      rewrite Hun in Hun'. inversion Hun'; subst.
      rewrite Hcount, Hkeep, Hmount. reflexivity.
    + pose proof (law_unmount_elsewhere (filepath.Join [base; id; "rootfs"]) h2 q Hq)
        as Hels.
      rewrite Hun in Hels. simpl in Hels.
      rewrite Hels, Hkeep. eapply law_mount_ok_elsewhere; eassumption.
Qed.



(** X13. Injecting a file does not prepare the container.  On a host that
    keeps the contract of this section (a failed mount mounts nothing, a
    successful one adds one mount, on its own mount point only; an unmount
    of a mounted path succeeds and releases one mount, there only; an
    unmount of a path with no mount fails and changes nothing; the copy
    and the log mount nothing): with nothing mounted on
    [<dir>/<id>/rootfs], after overlay [InjectFile] with [dir] as its base
    directory, successful or not, overlay [CleanupContainer] for the same
    container and directory returns an error and changes nothing. *)
Theorem OverlayFsStorage_InjectFile_does_not_prepare
    (o : OverlayFsStorage) (src : io_Reader) (id target dir : string)
    (perm uid gid : Z) (h : Host) :
  mount_count (filepath.Join [dir; id; "rootfs"]) h = 0%nat →
  let injected := OverlayFsStorage_InjectFile o src id target dir perm uid gid h in
  ∃ e, OverlayFsStorage_CleanupContainer o id dir injected.2 = (Some e, injected.2).
Proof.
  intros Hzero injected. unfold OverlayFsStorage_CleanupContainer.
  apply law_unmount_not_mounted. subst injected.
  rewrite OverlayFsStorage_InjectFile_mount_count. exact Hzero.
Qed.



End MountTable.

(** ** Where the raw-block backend keeps things *)

Section RawBlockLayout.

Context {Host : Type} {collab : Collaborators Host} {view : HostView Host}.

Hypothesis law_mkdir_existing : ∀ p perm h m,
  dir_perm p h = Some m → os_MkdirAll p perm h = (None, h).

Hypothesis law_mkdir_created : ∀ p perm h h',
  dir_perm p h = None → os_MkdirAll p perm h = (None, h') →
  dir_perm p h' = Some perm.

(** X14. [Init] makes the directory the volumes go into.  Let [D] be
    [<root>/volumes] as [Init] names it.  After a successful [Init], [D]
    is a directory, and the [Source] that a following successful
    [CreateVolume] fills in is [D], a separator and [podId-Name], an entry
    of [D] itself, when [podId-Name] is a single name; this for every root
    path. *)
Theorem RawBlockStorage_Init_holds_volumes
    (s : RawBlockStorage) (podId : string) (spec spec' : apitypes.UserVolume)
    (h h1 h2 : Host) :
  let D := filepath.Join [RawBlockStorage_RootPath s; "volumes"] in
  filepath.is_name (podId ++ "-" ++ apitypes.Name spec) →
  RawBlockStorage_Init s h = (None, h1) →
  RawBlockStorage_CreateVolume s podId spec h1 = ((None, spec'), h2) →
  is_Some (dir_perm D h1)
  ∧ apitypes.Source spec' = D ++ "/" ++ podId ++ "-" ++ apitypes.Name spec.
Proof.
  intros D Hname Hinit Hmade. split.
  - revert Hinit. unfold RawBlockStorage_Init. run_monad. fold D.
    destruct (os_MkdirAll D _ h) as [[e|] h0] eqn:Hmk; simpl;
      intros Hres; inversion Hres; subst.
    destruct (dir_perm D h) as [m|] eqn:Hbefore.
    + rewrite (law_mkdir_existing _ _ _ _ Hbefore) in Hmk.
      inversion Hmk; subst. eauto.
    + rewrite (law_mkdir_created _ _ _ _ Hbefore Hmk). eauto.
  - revert Hmade. unfold RawBlockStorage_CreateVolume. run_monad.
    destruct (rawblock_CreateBlock _ _ _ _ h1) as [[e|] h0];
      simpl; intros Hres; inversion Hres; subst. simpl.
    apply Join_child; [apply is_name_volumes | assumption].
Qed.

(** X15. The device a container is described by is the image that file
    injection attaches.  For a container id that is a single name, and
    every root path: the [Source] of the descriptor from raw-block
    [PrepareContainer] is the directory that [InjectFile] hands to the
    image helper as the place to look in, a separator, and the id; and
    when the helper cannot attach that image, [InjectFile] returns the
    helper's error and does nothing else. *)
Theorem RawBlockStorage_device_is_injected_image
    (s : RawBlockStorage) (id : string) :
  filepath.is_name id →
  let graphDir := filepath.Join [RawBlockStorage_RootPath s; "blocks"] in
  (∀ dir readonly (h h' : Host) v,
     RawBlockStorage_PrepareContainer s id dir readonly h = ((Some v, None), h') →
     runv.Source v = graphDir ++ "/" ++ id)
  ∧ (∀ src target base perm uid gid h e,
     let got := rawblock_GetImage graphDir base id "xfs" "" uid gid h in
     got.1 = Some e →
     RawBlockStorage_InjectFile s src id target base perm uid gid h = (Some e, got.2)).
Proof.
  intros Hid graphDir. split.
  - intros dir readonly h h' v. unfold RawBlockStorage_PrepareContainer. run_monad.
    intros Hres. inversion Hres; subst. simpl.
    apply Join_child; [apply is_name_blocks | assumption].
  - intros src target base perm uid gid h e got.
    unfold RawBlockStorage_InjectFile. run_monad. fold graphDir. subst got.
    destruct (rawblock_GetImage graphDir base id "xfs" "" uid gid h) as [err h1].
    simpl. intros ->. reflexivity.
Qed.

End RawBlockLayout.

(** ** The reference host keeps the wider contract *)

Lemma occurrences_remove_first_other {A} `{EqDecision A} (x y : A) (l : list A) :
  y ≠ x → occurrences y (remove_first x l) = occurrences y l.
Proof.
  intros Hne. induction l as [| z l IH]; simpl; [reflexivity |].
  destruct (decide (x = z)) as [<- | Hxz]; simpl.
  - rewrite decide_False by assumption. reflexivity.
  - by rewrite IH.
Qed.

Lemma ref_mount_ok_elsewhere env id root dir label ro h mp h' q :
  ref.MountContainerToSharedDir env id root dir label ro h = ((mp, None), h') →
  q ≠ filepath.Join [dir; id; "rootfs"] →
  mount_count q h' = mount_count q h.
Proof.
  unfold ref.MountContainerToSharedDir.
  case_decide; intros Hres Hq; inversion Hres; subst; simpl.
  rewrite decide_False by assumption. reflexivity.
Qed.

Lemma ref_unmount_elsewhere env p h q :
  q ≠ p → mount_count q (ref.Unmount env p 0 h).2 = mount_count q h.
Proof.
  intros Hq. unfold ref.Unmount. repeat case_decide; simpl; try reflexivity.
  - by apply occurrences_remove_first_other.
  - by destruct (dirs h !! p).
Qed.

Lemma data_root_clean : filepath.is_clean_dir (env_HYPER_ROOT calm).
Proof. split; [reflexivity | split; [reflexivity | discriminate]]. Qed.

Lemma is_name_c1 : filepath.is_name "c1".
Proof. split; [reflexivity | repeat split; discriminate]. Qed.

Lemma is_name_c2 : filepath.is_name "c2".
Proof. split; [reflexivity | repeat split; discriminate]. Qed.

(** ** The further statements at work on the reference host *)

Lemma StorageFactory_RootPath_witness :
  (@Storage_RootPath RefHost Storage (Storage_interface (collab := RefCollaborators calm))
     (Storage_rawblock example_rawblock) = "/var/lib/hyper/rawblock"
   ∧ filepath.is_clean_dir "/var/lib/hyper/rawblock")
  ∧ (filepath.Join ["/"; "overlay"] = "/overlay"
     ∧ filepath.is_clean_dir "/overlay").
Proof.
  split.
  - destruct (StorageFactory_RootPath (collab := RefCollaborators calm)
                {| dockertypes.Driver := "rawblock" |} tt
                (Storage_rawblock example_rawblock) eq_refl) as (_ & _ & Hclean & _).
    apply Hclean. exact data_root_clean.
  - destruct (StorageFactory_RootPath (collab := RefCollaborators at_root)
                {| dockertypes.Driver := "overlay" |} tt
                (Storage_overlay {| overlay_rootPath := "/overlay" |}) eq_refl)
      as (_ & _ & _ & Hslash).
    apply Hslash. reflexivity.
Defined.

Lemma StorageFactory_roots_apart_witness :
  OverlayFsStorage_RootPath example_overlay ≠ RawBlockStorage_RootPath example_rawblock.
Proof.
  apply (StorageFactory_roots_apart (collab := RefCollaborators calm)
           {| dockertypes.Driver := "overlay" |} {| dockertypes.Driver := "rawblock" |} tt
           (Storage_overlay example_overlay) (Storage_rawblock example_rawblock)
           eq_refl eq_refl).
  discriminate.
Defined.

Lemma rawblock_backend_paths_witness :
  @Storage_PrepareContainer RefHost Storage
    (Storage_interface (collab := RefCollaborators calm))
    (Storage_rawblock example_rawblock) "c1" "/run/share" false fresh
  = ((Some {| runv.Name := "/var/lib/hyper/rawblock/blocks/c1";
              runv.Source := "/var/lib/hyper/rawblock/blocks/c1";
              runv.Fstype := "xfs"; runv.Format := "raw";
              runv.ReadOnly := false |}, None), fresh)
  ∧ @Storage_PrepareContainer RefHost Storage
      (Storage_interface (collab := RefCollaborators at_root))
      (Storage_rawblock {| rawblock_rootPath := "/rawblock" |})
      "c1" "/run/share" false fresh
    = ((Some {| runv.Name := "/rawblock/blocks/c1";
                runv.Source := "/rawblock/blocks/c1";
                runv.Fstype := "xfs"; runv.Format := "raw";
                runv.ReadOnly := false |}, None), fresh).
Proof.
  split.
  - apply (proj1 (rawblock_backend_paths (collab := RefCollaborators calm)
                    {| dockertypes.Driver := "rawblock" |} tt
                    (Storage_rawblock example_rawblock) "/var/lib/hyper"
                    eq_refl eq_refl (or_introl (conj data_root_clean eq_refl)))
             "c1" "/run/share" false fresh is_name_c1).
  - apply (proj1 (rawblock_backend_paths (collab := RefCollaborators at_root)
                    {| dockertypes.Driver := "rawblock" |} tt
                    (Storage_rawblock {| rawblock_rootPath := "/rawblock" |}) ""
                    eq_refl eq_refl (or_intror (conj eq_refl eq_refl)))
             "c1" "/run/share" false fresh is_name_c1).
Defined.

Lemma PrepareContainer_Name_identifies_container_witness :
  runv.Name {| runv.Name := "/c1"; runv.Source := "/c1"; runv.Fstype := "dir";
               runv.Format := "vfs"; runv.ReadOnly := false |}
  ≠ runv.Name {| runv.Name := "/c2"; runv.Source := "/c2"; runv.Fstype := "dir";
                 runv.Format := "vfs"; runv.ReadOnly := true |}.
Proof.
  assert ("c1" ≠ "c2") as Hids by discriminate.
  apply (proj1 (PrepareContainer_Name_identifies_container
                  (collab := RefCollaborators calm)
                  "c1" "c2" "/run/share" "/run/other" false true fresh fresh
                  (OverlayFsStorage_PrepareContainer (collab := RefCollaborators calm)
                     example_overlay "c1" "/run/share" false fresh).2
                  (OverlayFsStorage_PrepareContainer (collab := RefCollaborators calm)
                     example_overlay "c2" "/run/other" true fresh).2
                  _ _ Hids) example_overlay eq_refl eq_refl).
Defined.

Lemma RawBlockStorage_CreateVolume_names_collide_witness :
  apitypes.Source
    (RawBlockStorage_CreateVolume (collab := RefCollaborators calm) example_rawblock
       "pod-x" {| apitypes.Name := "y"; apitypes.Source := "";
                  apitypes.Format := ""; apitypes.Fstype := "" |} fresh).1.2
  = apitypes.Source
      (RawBlockStorage_CreateVolume (collab := RefCollaborators calm) example_rawblock
         "pod" {| apitypes.Name := "x-y"; apitypes.Source := "";
                  apitypes.Format := ""; apitypes.Fstype := "" |} fresh).1.2.
Proof.
  apply (RawBlockStorage_CreateVolume_names_collide (collab := RefCollaborators calm)
           example_rawblock "pod" "x" "y"
           {| apitypes.Name := "y"; apitypes.Source := "";
              apitypes.Format := ""; apitypes.Fstype := "" |}
           {| apitypes.Name := "x-y"; apitypes.Source := "";
              apitypes.Format := ""; apitypes.Fstype := "" |}
           fresh eq_refl eq_refl).
  reflexivity.
Defined.

Lemma RawBlockStorage_CreateVolume_Source_identifies_volume_witness :
  "/var/lib/hyper/rawblock/volumes/p1-data" ≠ "/var/lib/hyper/rawblock/volumes/p1-logs".
Proof.
  assert ("data" ≠ "logs") as Hnames by discriminate.
  assert (filepath.is_name "p1-data") as Hdata
    by (split; [reflexivity | repeat split; discriminate]).
  assert (filepath.is_name "p1-logs") as Hlogs
    by (split; [reflexivity | repeat split; discriminate]).
  apply (RawBlockStorage_CreateVolume_Source_identifies_volume
           (collab := RefCollaborators calm) example_rawblock "p1"
           example_volume
           {| apitypes.Name := "logs"; apitypes.Source := "";
              apitypes.Format := ""; apitypes.Fstype := "" |}
           {| apitypes.Name := "data";
              apitypes.Source := "/var/lib/hyper/rawblock/volumes/p1-data";
              apitypes.Format := "raw"; apitypes.Fstype := "xfs" |}
           {| apitypes.Name := "logs";
              apitypes.Source := "/var/lib/hyper/rawblock/volumes/p1-logs";
              apitypes.Format := "raw"; apitypes.Fstype := "xfs" |}
           fresh fresh _ _ Hnames Hdata Hlogs eq_refl eq_refl).
Defined.

Lemma OverlayFsStorage_PrepareContainer_mounts_witness :
  mount_count "/run/share/c1/rootfs"
    (OverlayFsStorage_PrepareContainer (collab := RefCollaborators calm)
       example_overlay "c1" "/run/share" false prepared_twice).2 = 3%nat
  ∧ mount_count "/run/share/c1/rootfs"
      (OverlayFsStorage_PrepareContainer (collab := RefCollaborators broken)
         example_overlay "c1" "/run/share" false prepared_twice).2 = 2%nat.
Proof.
  split.
  - apply (OverlayFsStorage_PrepareContainer_mounts (collab := RefCollaborators calm)
             (ref_mount_ok calm) (ref_mount_ok_elsewhere calm) (ref_mount_failed calm)
             ref_log_keeps_mounts
             example_overlay "c1" "/run/share" false prepared_twice
             "/run/share/c1/rootfs").
    reflexivity.
  - apply (OverlayFsStorage_PrepareContainer_mounts (collab := RefCollaborators broken)
             (ref_mount_ok broken) (ref_mount_ok_elsewhere broken)
             (ref_mount_failed broken) ref_log_keeps_mounts
             example_overlay "c1" "/run/share" false prepared_twice
             "/run/share/c1/rootfs").
    discriminate.
Defined.





Lemma OverlayFsStorage_InjectFile_does_not_prepare_witness :
  ∃ e,
    OverlayFsStorage_CleanupContainer (collab := RefCollaborators calm)
      example_overlay "c1" "/run/inject"
      (OverlayFsStorage_InjectFile (collab := RefCollaborators calm)
         example_overlay example_file "c1" "etc/hosts" "/run/inject" 420 0 0 fresh).2
    = (Some e,
       (OverlayFsStorage_InjectFile (collab := RefCollaborators calm)
          example_overlay example_file "c1" "etc/hosts" "/run/inject" 420 0 0 fresh).2).
Proof.
  apply (OverlayFsStorage_InjectFile_does_not_prepare (collab := RefCollaborators calm)
           (ref_mount_ok calm) (ref_mount_ok_elsewhere calm) (ref_mount_failed calm)
           (λ p h, ref_unmount_mounted calm p h calm_not_busy)
           (ref_unmount_not_mounted calm) (ref_unmount_elsewhere calm)
           (ref_copy_keeps_mounts calm) ref_log_keeps_mounts
           example_overlay example_file "c1" "etc/hosts" "/run/inject" 420 0 0 fresh
           eq_refl).
Defined.

Lemma RawBlockStorage_Init_holds_volumes_witness :
  let first := RawBlockStorage_Init (collab := RefCollaborators calm)
                 example_rawblock fresh in
  let made := RawBlockStorage_CreateVolume (collab := RefCollaborators calm)
                example_rawblock "p1" example_volume first.2 in
  is_Some (dir_perm "/var/lib/hyper/rawblock/volumes" first.2)
  ∧ apitypes.Source made.1.2 = "/var/lib/hyper/rawblock/volumes" ++ "/" ++ "p1-data".
Proof.
  intros first made.
  assert (filepath.is_name "p1-data") as Hname
    by (split; [reflexivity | repeat split; discriminate]).
  apply (RawBlockStorage_Init_holds_volumes (collab := RefCollaborators calm)
           (ref_mkdir_existing calm) (ref_mkdir_created calm)
           example_rawblock "p1" example_volume made.1.2 fresh first.2 made.2
           Hname eq_refl eq_refl).
Defined.

Lemma RawBlockStorage_device_is_injected_image_witness :
  RawBlockStorage_InjectFile (collab := RefCollaborators calm)
    example_rawblock example_file "c1" "etc/hosts" "/run/inject" 420 0 0 fresh
  = (Some (os_PathError "stat" "/var/lib/hyper/rawblock/blocks/c1" ENOENT), fresh).
Proof.
  apply (proj2 (RawBlockStorage_device_is_injected_image
                  (collab := RefCollaborators calm) example_rawblock "c1" is_name_c1)
           example_file "etc/hosts" "/run/inject" 420 0 0 fresh).
  reflexivity.
Defined.

